(** * The message registry and message facade of offline-qr-code

    A shallow embedding of [common/modules/Messages/MessageRegister.js],
    [common/modules/Messages/MessageHandler.js] and
    [common/modules/MessageLevel.js].

    The JavaScript functions become functions in a state-and-exception
    monad [JS].  The state holds the three module-level [Map]s of the
    registry, the properties that the code puts on the [hooks] object
    itself and on the prototype of the maps, the elements of the page, the
    console, and the list of callbacks that were invoked. *)

From stdpp Require Import base option list strings gmap.

#[local] Set Warnings "-register-all".

(** ** JavaScript values *)

(** The five symbols of [MESSAGE_LEVEL], the five of [HOOK_TYPE] and
    [GLOBAL_HOOK_ID].  Every [Symbol(...)] of the source is evaluated once,
    so a symbol is identified by the place that creates it. *)
Inductive level := ERROR | WARN | INFO | LOADING | SUCCESS.
Inductive hook_kind := SHOW | HIDE | DISMISS_START | DISMISS_END | ACTION_BUTTON.
Inductive symbol :=
| LevelSymbol (l : level)
| HookSymbol (h : hook_kind)
| GlobalHookSymbol.

#[global] Instance level_eq_dec : EqDecision level.
Proof. solve_decision. Defined.
#[global] Instance hook_kind_eq_dec : EqDecision hook_kind.
Proof. solve_decision. Defined.
#[global] Instance symbol_eq_dec : EqDecision symbol.
Proof. solve_decision. Defined.

(** Elements are referred to by their identity, a number. *)
Abbreviation ref := nat (only parsing).

(** A DOM event: [event.type], [event.target], [event.currentTarget]. *)
Record event := Event {
  ev_type : string;
  ev_target : ref;
  ev_currentTarget : ref
}.

(** Property keys are strings or symbols. *)
Inductive propkey := KStr (s : string) | KSym (y : symbol).

#[global] Instance propkey_eq_dec : EqDecision propkey.
Proof. solve_decision. Defined.

(** The values the two modules handle.  [VObj o props] is a plain object:
    [o] is its identity (used when objects are compared or used as keys of a
    [Map]) and [props] its own properties. *)
Inductive value :=
| VUndefined
| VNull
| VBool (b : bool)
| VStr (s : string)
| VSym (y : symbol)
| VElem (r : ref)
| VFun (f : nat)
| VEvent (e : event)
| VObj (o : nat) (props : list (propkey * value)).

(** [a === b], which is also how a [Map] compares keys.  Two objects are
    the same when they have the same identity; the properties of one object
    are the same wherever it is mentioned. *)
Fixpoint same_value (a b : value) : bool :=
  match a, b with
  | VUndefined, VUndefined => true
  | VNull, VNull => true
  | VBool x, VBool y => bool_decide (x = y)
  | VStr x, VStr y => bool_decide (x = y)
  | VSym x, VSym y => bool_decide (x = y)
  | VElem x, VElem y => bool_decide (x = y)
  | VFun x, VFun y => bool_decide (x = y)
  | VEvent x, VEvent y =>
      bool_decide (ev_type x = ev_type y) && bool_decide (ev_target x = ev_target y)
      && bool_decide (ev_currentTarget x = ev_currentTarget y)
  | VObj x p, VObj y q =>
      bool_decide (x = y)
      && (fix same_props (p q : list (propkey * value)) : bool :=
            match p, q with
            | [], [] => true
            | (k, v) :: p, (k', v') :: q =>
                bool_decide (k = k') && same_value v v' && same_props p q
            | _, _ => false
            end) p q
  | _, _ => false
  end.

Definition is_undefined (v : value) : bool :=
  match v with VUndefined => true | _ => false end.
Definition is_null (v : value) : bool :=
  match v with VNull => true | _ => false end.
Definition is_string (v : value) : bool :=
  match v with VStr _ => true | _ => false end.
Definition is_boolean (v : value) : bool :=
  match v with VBool _ => true | _ => false end.

(** [v instanceof HTMLElement] *)
Definition is_HTMLElement (v : value) : bool :=
  match v with VElem _ => true | _ => false end.

(** lodash's [isFunction] *)
Definition isFunction (v : value) : bool :=
  match v with VFun _ => true | _ => false end.

(** JavaScript truthiness, as used by [!x], [x && y] and [x || y]. *)
Definition truthy (v : value) : bool :=
  match v with
  | VUndefined | VNull => false
  | VBool b => b
  | VStr s => negb (bool_decide (s = ""))
  | _ => true
  end.

(** Own-property lookup in a property list. *)
Fixpoint own_property (k : propkey) (props : list (propkey * value)) : option value :=
  match props with
  | [] => None
  | (k', v) :: rest => if bool_decide (k = k') then Some v else own_property k rest
  end.

(** [props[k] = v]: overwrite in place, or append a new property. *)
Fixpoint set_own_property (k : propkey) (v : value) (props : list (propkey * value))
  : list (propkey * value) :=
  match props with
  | [] => [(k, v)]
  | (k', v') :: rest =>
      if bool_decide (k = k') then (k, v) :: rest
      else (k', v') :: set_own_property k v rest
  end.

(** [Object.keys(o)]: the own enumerable properties with a _string_ key.
    Properties keyed by a symbol are not listed. *)
Fixpoint Object_keys (props : list (propkey * value)) : list string :=
  match props with
  | [] => []
  | (KStr s, _) :: rest => s :: Object_keys rest
  | (KSym _, _) :: rest => Object_keys rest
  end.

(** Reading a member of a module-level constant object, [O.NAME]. *)
Definition member (o : value) (name : string) : value :=
  match o with
  | VObj _ props => default VUndefined (own_property (KStr name) props)
  | _ => VUndefined
  end.

(** The conversion of a value to a property key in [o[v]].  For a
    function, an element and an event the key is a string that stands for
    their [toString()]. *)
Definition ToPropertyKey (v : value) : propkey :=
  match v with
  | VSym y => KSym y
  | VStr s => KStr s
  | VUndefined => KStr "undefined"
  | VNull => KStr "null"
  | VBool true => KStr "true"
  | VBool false => KStr "false"
  | VElem _ => KStr "[object HTMLElement]"
  | VFun _ => KStr "function () {}"
  | VEvent _ => KStr "[object Event]"
  | VObj _ _ => KStr "[object Object]"
  end.

(** ** [Map] *)

(** A [Map] keeps its entries in insertion order; keys are compared with
    [same_value]. *)
Definition Map := list (value * value).

Fixpoint Map_has (m : Map) (k : value) : bool :=
  match m with
  | [] => false
  | (k', _) :: rest => same_value k k' || Map_has rest k
  end.

Fixpoint Map_get (m : Map) (k : value) : value :=
  match m with
  | [] => VUndefined
  | (k', v) :: rest => if same_value k k' then v else Map_get rest k
  end.

Fixpoint Map_set (m : Map) (k v : value) : Map :=
  match m with
  | [] => [(k, v)]
  | (k', v') :: rest =>
      if same_value k k' then (k', v) :: rest else (k', v') :: Map_set rest k v
  end.

Definition Map_keys (m : Map) : list value := m.*1.
Definition Map_values (m : Map) : list value := m.*2.

(** ** The page *)

(** The two functions of the registry that are attached as event
    listeners. *)
Inductive listener := dismissMessage_listener | actionButtonClicked_listener.

#[global] Instance listener_eq_dec : EqDecision listener.
Proof. solve_decision. Defined.

(** An element: what the code reads or writes of it.  All nodes of the model
    are elements, so [parentNode] and [parentElement] coincide.  The text
    content of an element is kept as one string and [children] lists its
    child elements. *)
Record node := Node {
  parentNode : option ref;
  el_id : string;
  classList : list string;
  href : option string;
  textContent : string;
  children : list ref;
  listeners : list (string * listener)
}.

Definition empty_node : node :=
  {| parentNode := None; el_id := ""; classList := []; href := None;
     textContent := ""; children := []; listeners := [] |}.

#[global] Instance node_inhabited : Inhabited node := populate empty_node.

(** ** Exceptions, the console, recorded callback invocations *)

Inductive exn :=
| TypeError (msg : string)
| Error (msg : string) (about : value)
| RangeError (msg : string).

Inductive log_kind := LOG | LOG_INFO | LOG_ERROR.

(** The argument a hook is called with. *)
Inductive hook_param :=
| NoParam
| DismissParam (elMessage : value) (ev : event)
| ActionParam (elMessage messagetype : value) (ev : event).

(** ** The state *)

Record state := State {
  (** [const elementByType = new Map()] *)
  elementByType : Map;
  (** [const styleClassByType = new Map()] *)
  styleClassByType : Map;
  (** [const hooks = new Map()]: the entries of the map *)
  hooks : Map;
  (** the own properties of the object [hooks], set by [hooks[k] = v];
      line 316 lets line 317 add one only under a key that [hooks] does not
      inherit, so none of them hides a method of the map *)
  hooks_props : list (propkey * value);
  (** [Map.prototype.actionButton], the one property the code can put on
      the prototype of its maps (lines 379 and 387, through
      [hooks["__proto__"]]); [None] as long as there is none *)
  Map_prototype_actionButton : option value;
  (** the elements, by identity *)
  document : gmap nat node;
  (** [browser.i18n.getMessage], which is not changed by the code *)
  i18n_getMessage : list value → string;
  (** what was passed to [Logger] *)
  console : list (log_kind * list value);
  (** the callbacks that were invoked, oldest first, with their argument *)
  called : list (value * hook_param)
}.

Definition set_hooks (f : Map → Map) (s : state) : state :=
  {| elementByType := elementByType s; styleClassByType := styleClassByType s;
     hooks := f (hooks s); hooks_props := hooks_props s;
     Map_prototype_actionButton := Map_prototype_actionButton s; document := document s;
     i18n_getMessage := i18n_getMessage s; console := console s; called := called s |}.

Definition set_hooks_props (f : list (propkey * value) → list (propkey * value))
    (s : state) : state :=
  {| elementByType := elementByType s; styleClassByType := styleClassByType s;
     hooks := hooks s; hooks_props := f (hooks_props s);
     Map_prototype_actionButton := Map_prototype_actionButton s; document := document s;
     i18n_getMessage := i18n_getMessage s; console := console s; called := called s |}.

Definition set_Map_prototype_actionButton (f : option value → option value)
    (s : state) : state :=
  {| elementByType := elementByType s; styleClassByType := styleClassByType s;
     hooks := hooks s; hooks_props := hooks_props s;
     Map_prototype_actionButton := f (Map_prototype_actionButton s); document := document s;
     i18n_getMessage := i18n_getMessage s; console := console s; called := called s |}.

Definition set_document (f : gmap nat node → gmap nat node) (s : state) : state :=
  {| elementByType := elementByType s; styleClassByType := styleClassByType s;
     hooks := hooks s; hooks_props := hooks_props s;
     Map_prototype_actionButton := Map_prototype_actionButton s; document := f (document s);
     i18n_getMessage := i18n_getMessage s; console := console s; called := called s |}.

Definition set_console (f : list (log_kind * list value) → list (log_kind * list value))
    (s : state) : state :=
  {| elementByType := elementByType s; styleClassByType := styleClassByType s;
     hooks := hooks s; hooks_props := hooks_props s;
     Map_prototype_actionButton := Map_prototype_actionButton s; document := document s;
     i18n_getMessage := i18n_getMessage s; console := f (console s); called := called s |}.

Definition set_called (f : list (value * hook_param) → list (value * hook_param))
    (s : state) : state :=
  {| elementByType := elementByType s; styleClassByType := styleClassByType s;
     hooks := hooks s; hooks_props := hooks_props s;
     Map_prototype_actionButton := Map_prototype_actionButton s; document := document s;
     i18n_getMessage := i18n_getMessage s; console := console s; called := f (called s) |}.

(** ** The monad *)

Inductive outcome (A : Type) :=
| Return (a : A)
| Throw (e : exn).
Arguments Return {A} a.
Arguments Throw {A} e.

(** A computation runs from a state to a state and either returns or
    throws; the state reached when it throws is kept. *)
Definition JS (A : Type) : Type := state → state * outcome A.

#[global] Instance JS_ret : MRet JS := λ A a s, (s, Return a).
#[global] Instance JS_bind : MBind JS := λ A B f m s,
  match m s with
  | (s', Return a) => f a s'
  | (s', Throw e) => (s', Throw e)
  end.

Definition throw {A} (e : exn) : JS A := λ s, (s, Throw e).
Definition gets {A} (f : state → A) : JS A := λ s, (s, Return (f s)).
Definition modify (f : state → state) : JS unit := λ s, (f s, Return tt).

(** [for (const x of l) body(x)] and [l.forEach(body)] *)
Fixpoint forEach {A} (l : list A) (body : A → JS unit) : JS unit :=
  match l with
  | [] => mret tt
  | x :: rest => body x;; forEach rest body
  end.

(** [iterator.find(p)]: the first item on which [p] returns true, or
    [undefined]. *)
Fixpoint Iterator_find (p : value → JS bool) (l : list value) : JS value :=
  match l with
  | [] => mret VUndefined
  | x :: rest => b ← p x; if b : bool then mret x else Iterator_find p rest
  end.

(** [Map.prototype] has [get], [set], [has], [keys], [forEach], ... but no
    method [add]: calling [m.add(...)] throws. *)
Definition Map_add (name : string) : JS unit :=
  throw (TypeError (name +:+ ".add is not a function")).

(** [base.name], a property read. *)
Definition get_property (base : value) (k : propkey) : JS value :=
  match base with
  | VUndefined | VNull => throw (TypeError "can't access property of undefined or null")
  | VObj _ props => mret (default VUndefined (own_property k props))
  | _ => mret VUndefined
  end.

(** [base[k] = v].  Both files are modules, hence strict code: writing a
    property on a primitive throws.  The result is the object after the
    write.  A property put on an element, a function or an event is not
    tracked. *)
Definition put_property (base : value) (k : propkey) (v : value) : JS value :=
  match base with
  | VUndefined | VNull => throw (TypeError "can't set property of undefined or null")
  | VBool _ | VStr _ | VSym _ => throw (TypeError "can't assign to property on a primitive")
  | VObj o props => mret (VObj o (set_own_property k v props))
  | VElem _ | VFun _ | VEvent _ => mret base
  end.

(** The conversion to a string that [setAttribute] and [textContent] apply
    to what they are given (for a function, an element and an event: a
    string that stands for their [toString()]). *)
Definition ToString (v : value) : JS string :=
  match v with
  | VStr s => mret s
  | VUndefined => mret "undefined"
  | VNull => mret "null"
  | VBool true => mret "true"
  | VBool false => mret "false"
  | VSym _ => throw (TypeError "can't convert symbol to string")
  | VElem _ => mret "[object HTMLElement]"
  | VFun _ => mret "function () {}"
  | VEvent _ => mret "[object Event]"
  | VObj _ _ => mret "[object Object]"
  end.

(** ** [Logger] *)

Module Logger.
Definition log (args : list value) : JS unit :=
  modify (set_console (λ c, c ++ [(LOG, args)])).
Definition logInfo (args : list value) : JS unit :=
  modify (set_console (λ c, c ++ [(LOG_INFO, args)])).
Definition logError (args : list value) : JS unit :=
  modify (set_console (λ c, c ++ [(LOG_ERROR, args)])).
End Logger.

(** ** Elements *)

(** Using a value as an element: a method of an element called on anything
    else throws. *)
Definition element_of (v : value) : JS ref :=
  match v with
  | VElem r => mret r
  | _ => throw (TypeError "not an element")
  end.

(** Using the result of [collection[0]] or of [parentNode] as an element. *)
Definition defined (o : option ref) : JS ref :=
  match o with
  | Some r => mret r
  | None => throw (TypeError "can't access property of undefined or null")
  end.

Definition update_node (r : ref) (f : node → node) : JS unit :=
  modify (set_document (λ d, <[r := f (d !!! r)]> d)).

Definition with_classList (f : list string → list string) (n : node) : node :=
  {| parentNode := parentNode n; el_id := el_id n; classList := f (classList n);
     href := href n; textContent := textContent n; children := children n;
     listeners := listeners n |}.

Definition with_href (h : option string) (n : node) : node :=
  {| parentNode := parentNode n; el_id := el_id n; classList := classList n;
     href := h; textContent := textContent n; children := children n;
     listeners := listeners n |}.

Definition with_listeners (f : list (string * listener) → list (string * listener))
    (n : node) : node :=
  {| parentNode := parentNode n; el_id := el_id n; classList := classList n;
     href := href n; textContent := textContent n; children := children n;
     listeners := f (listeners n) |}.

Definition with_parentNode (p : option ref) (n : node) : node :=
  {| parentNode := p; el_id := el_id n; classList := classList n;
     href := href n; textContent := textContent n; children := children n;
     listeners := listeners n |}.

Definition with_text (t : string) (n : node) : node :=
  {| parentNode := parentNode n; el_id := el_id n; classList := classList n;
     href := href n; textContent := t; children := [];
     listeners := listeners n |}.

(** [DOMTokenList]: [contains], [add] (no duplicate), [remove]. *)
Definition tokens_contains (c : string) (l : list string) : bool := bool_decide (c ∈ l).
Definition tokens_add (c : string) (l : list string) : list string :=
  if bool_decide (c ∈ l) then l else l ++ [c].
Definition tokens_remove (c : string) (l : list string) : list string :=
  filter (λ x, x ≠ c) l.

Definition classList_contains (r : ref) (c : string) : JS bool :=
  gets (λ s, tokens_contains c (classList (document s !!! r))).
Definition classList_add (r : ref) (c : string) : JS unit :=
  update_node r (with_classList (tokens_add c)).
Definition classList_remove (r : ref) (c : string) : JS unit :=
  update_node r (with_classList (tokens_remove c)).

(** [el.parentNode] / [el.parentElement] as a value: an element or [null]. *)
Definition parent_value (n : node) : value :=
  match parentNode n with Some p => VElem p | None => VNull end.

(** The descendants of [r] in document order.  The walk goes at most
    [fuel] levels down; it is run with the number of elements of the page,
    which no tree over them exceeds. *)
Fixpoint descendants (fuel : nat) (d : gmap nat node) (r : ref) : list ref :=
  match fuel with
  | 0 => []
  | S n => flat_map (λ c, c :: descendants n d c) (children (d !!! r))
  end.

(** [el.getElementsByClassName(c)] *)
Definition elementsByClassName (d : gmap nat node) (r : ref) (c : string) : list ref :=
  filter (λ x, c ∈ classList (d !!! x)) (descendants (size d) d r).

Definition getElementsByClassName (r : ref) (c : string) : JS (list ref) :=
  gets (λ s, elementsByClassName (document s) r c).

(** [el.addEventListener(type, f)]: a listener that is already registered
    for the type is not added twice. *)
Definition addEventListener (r : ref) (type : string) (f : listener) : JS unit :=
  update_node r
    (with_listeners (λ l, if bool_decide ((type, f) ∈ l) then l else l ++ [(type, f)])).

Definition removeEventListener (r : ref) (type : string) (f : listener) : JS unit :=
  update_node r (with_listeners (filter (λ x, x ≠ (type, f)))).

(** [el.textContent = t]: the children of [el] are detached and [t] becomes
    its content. *)
Definition set_textContent (r : ref) (t : string) : JS unit :=
  kids ← gets (λ s, children (document s !!! r));
  forEach kids (λ c, update_node c (with_parentNode None));;
  update_node r (with_text t).

(** [a.isEqualNode(b)] on two elements: same id, same class attribute, same
    attributes, same content, and pairwise equal children.  Listeners and the
    position in the page do not count.  [fuel] as for [descendants]: nodes
    that agree down to that depth are equal. *)
Fixpoint equal_nodes (fuel : nat) (d : gmap nat node) (a b : ref) : bool :=
  match fuel with
  | 0 => true
  | S n =>
      let x := d !!! a in
      let y := d !!! b in
      bool_decide (el_id x = el_id y)
      && bool_decide (classList x = classList y)
      && bool_decide (href x = href y)
      && bool_decide (textContent x = textContent y)
      && bool_decide (length (children x) = length (children y))
      && forallb (λ p : nat * nat, equal_nodes n d p.1 p.2) (zip (children x) (children y))
  end.

(** [self.isEqualNode(other)] on values. *)
Definition isEqualNode (self other : value) : JS bool :=
  match self with
  | VElem a =>
      match other with
      | VElem b => gets (λ s, equal_nodes (size (document s)) (document s) a b)
      | VNull | VUndefined => mret false
      | _ => throw (TypeError "Node.isEqualNode: argument 1 is not a Node")
      end
  | VUndefined | VNull => throw (TypeError "can't access property of undefined or null")
  | _ => throw (TypeError "not a function")
  end.

(** [document.getElementById(id)]: an element with that id, or [null]. *)
Definition getElementById (d : gmap nat node) (i : string) : value :=
  match filter (λ p : nat * node, el_id p.2 = i) (map_to_list d) with
  | (r, _) :: _ => VElem r
  | [] => VNull
  end.

Definition setAttribute_href (r : ref) (v : string) : JS unit :=
  update_node r (with_href (Some v)).
Definition removeAttribute_href (r : ref) : JS unit :=
  update_node r (with_href None).

(** [args[0]] and the rest of [args] after [args.shift()]. *)
Definition first (args : list value) : value :=
  match args with [] => VUndefined | x :: _ => x end.
Definition shifted (args : list value) : list value :=
  match args with [] => [] | _ :: rest => rest end.

(** [el.cloneNode(deep)]: a copy of the element, and with [deep] of its
    descendants, under new identities; the copy has no parent and no
    listeners.  [fuel] as for [descendants]. *)
Definition fresh_ref (d : gmap nat node) : nat := fresh (dom d).

Definition with_children (l : list ref) (n : node) : node :=
  {| parentNode := parentNode n; el_id := el_id n; classList := classList n;
     href := href n; textContent := textContent n; children := l;
     listeners := listeners n |}.

Definition with_id (i : string) (n : node) : node :=
  {| parentNode := parentNode n; el_id := i; classList := classList n;
     href := href n; textContent := textContent n; children := children n;
     listeners := listeners n |}.

Fixpoint clone_tree (fuel : nat) (d : gmap nat node) (r : ref) (parent : option ref)
  : gmap nat node * ref :=
  let new := fresh_ref d in
  let n := d !!! r in
  let copy := {| parentNode := parent; el_id := el_id n; classList := classList n;
                 href := href n; textContent := textContent n; children := [];
                 listeners := [] |} in
  match fuel with
  | 0 => (<[new := copy]> d, new)
  | S fuel =>
      let '(d', kids) :=
        foldl (λ acc c, let '(d1, ks) := acc in
                        let '(d2, k) := clone_tree fuel d1 c (Some new) in
                        (d2, ks ++ [k]))
              (<[new := copy]> d, []) (children n) in
      (<[new := with_children kids (d' !!! new)]> d', new)
  end.

Definition cloneNode (r : ref) (deep : bool) : JS ref :=
  d ← gets document;
  let '(d', new) := clone_tree (if deep then size d else 0) d r None in
  modify (set_document (λ _, d'));;
  mret new.

(** The ancestors of [r], nearest first. *)
Fixpoint ancestors (fuel : nat) (d : gmap nat node) (r : ref) : list ref :=
  match fuel with
  | 0 => []
  | S n =>
      match parentNode (d !!! r) with
      | Some p => p :: ancestors n d p
      | None => []
      end
  end.

Fixpoint insert_after (r new : ref) (l : list ref) : list ref :=
  match l with
  | [] => [new]
  | x :: rest => if bool_decide (x = r) then x :: new :: rest else x :: insert_after r new rest
  end.

(** [el.insertAdjacentElement("afterend", new)]: [null] if [el] has no
    parent; otherwise [new] is taken out of the parent it has and becomes
    the next sibling of [el].  An element cannot be put below itself. *)
Definition insertAdjacentElement_afterend (r new : ref) : JS value :=
  d ← gets document;
  match parentNode (d !!! r) with
  | None => mret VNull
  | Some parent =>
      if bool_decide (new = parent) || bool_decide (new ∈ ancestors (size d) d parent)
      then throw (Error "HierarchyRequestError" (VElem new))
      else
        match parentNode (d !!! new) with
        | Some old => update_node old (λ n, with_children (filter (λ x, x ≠ new) (children n)) n)
        | None => mret tt
        end;;
        update_node parent (λ n, with_children (insert_after r new (children n)) n);;
        update_node new (with_parentNode (Some parent));;
        mret (VElem new)
  end.

(** ** common/modules/MessageLevel.js *)

Definition MESSAGE_LEVEL : value :=
  VObj 1 [ (KStr "ERROR", VSym (LevelSymbol ERROR));
           (KStr "WARN", VSym (LevelSymbol WARN));
           (KStr "INFO", VSym (LevelSymbol INFO));
           (KStr "LOADING", VSym (LevelSymbol LOADING));
           (KStr "SUCCESS", VSym (LevelSymbol SUCCESS)) ].

(** ** common/modules/Messages/MessageRegister.js *)

(** The functions of the module, each on the state it finds.  The object
    [hookXs] (lines 28-61) is read by no function and has no counterpart
    here; [setMessageDesign], which passes elements and symbols to
    [classList.add] and [classList.remove], is left out. *)
Module MessageRegister.

Definition HOOK_TYPE : value :=
  VObj 2 [ (KStr "SHOW", VSym (HookSymbol SHOW));
           (KStr "HIDE", VSym (HookSymbol HIDE));
           (KStr "DISMISS_START", VSym (HookSymbol DISMISS_START));
           (KStr "DISMISS_END", VSym (HookSymbol DISMISS_END));
           (KStr "ACTION_BUTTON", VSym (HookSymbol ACTION_BUTTON)) ].

Definition HOOK_TEMPLATE : value :=
  VObj 3 [ (KSym (HookSymbol SHOW), VNull);
           (KSym (HookSymbol HIDE), VNull);
           (KSym (HookSymbol DISMISS_START), VNull);
           (KSym (HookSymbol DISMISS_END), VNull);
           (KSym (HookSymbol ACTION_BUTTON), VNull) ].

Definition GLOBAL_HOOK_ID : value := VSym GlobalHookSymbol.

(** How deep calls may nest before the engine throws its [RangeError]. *)
Definition stack_limit : nat := 16.

(** lines 72-80 *)
Definition getCustomMessageType (elMessage : value) : JS value :=
  el ← element_of elMessage;
  isBox ← classList_contains el "message-box";
  if negb isBox
  then throw (Error "message element is no real message box" elMessage)
  else gets (λ s, VStr (el_id (document s !!! el))).

(** lines 91-107.  [elementByType.keys()] is an iterator and [find] the
    method of iterators: the keys are tried in insertion order.  [find] gives
    [undefined] when no key matches, and also when the key that matches is
    [undefined]. *)
Definition getMessageTypeFromElement (elMessage : value) : JS value :=
  m ← gets elementByType;
  messagetype ← Iterator_find (λ messagetype,
      if negb (Map_has m messagetype) then mret false
      else isEqualNode (Map_get m messagetype) elMessage) (Map_keys m);
  if is_undefined messagetype
  then getCustomMessageType elMessage
  else mret messagetype.

(** lines 125-144: [[messagetype, elMessage, isCustomMessage]].  The
    message of the error of line 140 is a template literal that converts
    [messagetype] to a string, which throws a [TypeError] when it is a
    symbol, as every member of [MESSAGE_LEVEL] is; otherwise the [Error] is
    thrown, which is kept here as the text of the template and the value
    that is put into it. *)
Definition getElementFromMessageType (messagetype : value) : JS (value * value * bool) :=
  if is_HTMLElement messagetype then
    let elMessage := messagetype in
    messagetype ← getCustomMessageType elMessage;
    mret (messagetype, elMessage, true)
  else
    m ← gets elementByType;
    if Map_has m messagetype
    then mret (messagetype, Map_get m messagetype, false)
    else
      ToString messagetype;;
      throw (Error "message type is/belong to an unknown element" messagetype).

(** [hook(param)].  A callback is opaque: that it was invoked, and with
    what, is recorded in [called]. *)
Definition call (hook : value) (param : hook_param) : JS unit :=
  match hook with
  | VFun _ => modify (set_called (λ c, c ++ [(hook, param)]))
  | _ => throw (TypeError "hook is not a function")
  end.

(** lines 159-170.  The property that is read from the bundle is the one
    named ["hooktype"]: the source writes [.hooktype], not [[hooktype]].
    The call to itself passes on [messagetype] and puts [GLOBAL_HOOK_ID] in
    the place of [hooktype]. *)
Fixpoint runHook_at (depth : nat) (messagetype hooktype : value) (param : hook_param)
  : JS unit :=
  match depth with
  | 0 => throw (RangeError "too much recursion")
  | S depth =>
      (if negb (same_value hooktype GLOBAL_HOOK_ID)
       then runHook_at depth messagetype GLOBAL_HOOK_ID param
       else mret tt);;
      h ← gets hooks;
      hook ← get_property (Map_get h messagetype) (KStr "hooktype");
      if negb (is_null hook) && negb (is_undefined hook)
      then call hook param
      else mret tt
  end.

Definition runHook : value → value → hook_param → JS unit := runHook_at stack_limit.

(** lines 417-444.  The callback of [elementByType.forEach] receives the
    _value_ of each entry, the element, as [currentType]. *)
Fixpoint hideMessage_at (depth : nat) (messagetype : value) : JS unit :=
  match depth with
  | 0 => throw (RangeError "too much recursion")
  | S depth =>
      if is_null messagetype || is_undefined messagetype then
        m ← gets elementByType;
        forEach (Map_values m) (λ currentType, hideMessage_at depth currentType)
      else
        '(_, elMessage, _) ← getElementFromMessageType messagetype;
        el ← element_of elMessage;
        icons ← getElementsByClassName el "icon-dismiss";
        let elDismissIcon := head icons in
        classList_add el "invisible";;
        match elDismissIcon with
        | Some icon => classList_add icon "invisible"
        | None => mret tt
        end;;
        Logger.logInfo [VStr "message is hidden"; elMessage];;
        runHook messagetype (member HOOK_TYPE "HIDE") NoParam
  end.

Definition hideMessage : value → JS unit := hideMessage_at stack_limit.

(** lines 184-223 *)
Definition dismissMessage (event : event) : JS unit :=
  if bool_decide (ev_type event = "click") then
    let elDismissIcon := ev_target event in
    elMessage ← gets (λ s, parent_value (document s !!! elDismissIcon));
    messagetype ← getMessageTypeFromElement elMessage;
    el ← element_of elMessage;
    isBox ← classList_contains el "message-box";
    if negb isBox then mret tt
    else
      classList_add el "fade-hide";;
      addEventListener el "transitionend" dismissMessage_listener;;
      runHook messagetype (VStr "dismissStart") (DismissParam elMessage event);;
      Logger.logInfo [VStr "message is dismissed"; VEvent event]
  else if bool_decide (ev_type event = "transitionend") then
    let elMessage := VElem (ev_target event) in
    messagetype ← getMessageTypeFromElement elMessage;
    hideMessage elMessage;;
    runHook messagetype (VStr "dismissEnd") (DismissParam elMessage event);;
    removeEventListener (ev_target event) "transitionend" dismissMessage_listener
  else mret tt.

(** lines 233-246 *)
Definition actionButtonClicked (event : event) : JS unit :=
  let elActionButtonLink := ev_currentTarget event in
  elMessage ← gets (λ s, parent_value (document s !!! elActionButtonLink));
  messagetype ← getMessageTypeFromElement elMessage;
  Logger.logInfo [VStr "action button clicked for "; messagetype; VEvent event];;
  runHook messagetype (VStr "actionButton") (ActionParam elMessage messagetype event).

(** What a listener does when the browser calls it. *)
Definition run_listener (f : listener) (event : event) : JS unit :=
  match f with
  | dismissMessage_listener => dismissMessage event
  | actionButtonClicked_listener => actionButtonClicked event
  end.

(** line 317: [{"show": null, "hide": null, "actionButton": null}] *)
Definition custom_bundle : value :=
  VObj 0 [ (KStr "show", VNull); (KStr "hide", VNull); (KStr "actionButton", VNull) ].

(** The methods that a [Map] inherits under a string key from
    [Map.prototype] and from [Object.prototype] (ECMAScript 2023 with its
    Annex B).  Each is a function object. *)
Definition inherited_methods : list string :=
  [ "clear"; "constructor"; "delete"; "entries"; "forEach"; "get"; "has"; "keys";
    "set"; "values";
    "hasOwnProperty"; "isPrototypeOf"; "propertyIsEnumerable"; "toLocaleString";
    "toString"; "valueOf";
    "__defineGetter__"; "__defineSetter__"; "__lookupGetter__"; "__lookupSetter__" ].

(** What [hooks[k]] finds.  [hooks] is a [Map], and [hooks[k]] reads a
    property of that object, not an entry of the map: an own property, or a
    member it inherits. *)
Inductive hooks_member :=
| OwnProperty (v : value)        (** a property that line 317 has set *)
| PrototypeProperty (v : value)  (** [Map.prototype.actionButton], once written *)
| InheritedMethod                (** a method of [Map.prototype] or [Object.prototype] *)
| SizeOfMap                      (** the accessor [size]: a number *)
| PrototypeOfMap                 (** the accessor [__proto__]: [Map.prototype] itself *)
| NoProperty.                    (** [undefined] *)

Definition lookup_hooks (s : state) (k : propkey) : hooks_member :=
  match own_property k (hooks_props s) with
  | Some v => OwnProperty v
  | None =>
      match k with
      | KStr name =>
          if bool_decide (name = "size") then SizeOfMap
          else if bool_decide (name = "__proto__") then PrototypeOfMap
          else if bool_decide (name ∈ inherited_methods) then InheritedMethod
          else if bool_decide (name = "actionButton") then
            match Map_prototype_actionButton s with
            | Some v => PrototypeProperty v
            | None => NoProperty
            end
          else NoProperty
      | KSym _ => NoProperty
      end
  end.

(** [hooks[k] === undefined] *)
Definition member_is_undefined (m : hooks_member) : bool :=
  match m with
  | OwnProperty v | PrototypeProperty v => is_undefined v
  | NoProperty => true
  | InheritedMethod | SizeOfMap | PrototypeOfMap => false
  end.

(** lines 314-323 *)
Definition setup_custom_hooks (messagetype : value) (isCustomMessage : bool) : JS unit :=
  if isCustomMessage then
    found ← gets (λ s, lookup_hooks s (ToPropertyKey messagetype));
    if member_is_undefined found
    then modify (set_hooks_props (set_own_property (ToPropertyKey messagetype) custom_bundle))
    else mret tt
  else mret tt.

(** lines 379 and 387: [hooks[messagetype].actionButton = v].  The write
    goes to what [hooks[messagetype]] finds: to the bundle, to a function
    object (which nothing reads again), to [Map.prototype], or it throws, on
    [undefined] and [null] and, the code being strict, on a number. *)
Definition set_actionButton_hook (messagetype v : value) : JS unit :=
  let k := ToPropertyKey messagetype in
  found ← gets (λ s, lookup_hooks s k);
  match found with
  | OwnProperty base =>
      bundle ← put_property base (KStr "actionButton") v;
      match base with
      | VObj _ _ => modify (set_hooks_props (set_own_property k bundle))
      | _ => mret tt
      end
  | PrototypeProperty base =>
      bundle ← put_property base (KStr "actionButton") v;
      match base with
      | VObj _ _ => modify (set_Map_prototype_actionButton (λ _, Some bundle))
      | _ => mret tt
      end
  | InheritedMethod => mret tt
  | SizeOfMap => throw (TypeError "can't assign to property on a primitive")
  | PrototypeOfMap => modify (set_Map_prototype_actionButton (λ _, Some v))
  | NoProperty => throw (TypeError "can't set property of undefined or null")
  end.

(** lines 344-357: the leading arguments by their type.  The result is
    [(mainMessage, isDismissable, actionButton, args)]. *)
Definition parse_arguments (args : list value) : JS (value * value * value * list value) :=
  let mainMessage := if is_string (first args) then first args else VNull in
  let args := if is_string (first args) then shifted args else args in
  let isDismissable := if is_boolean (first args) then first args else VBool false in
  let args := if is_boolean (first args) then shifted args else args in
  isButton ←
    (if negb (is_undefined (first args)) then
       text ← get_property (first args) (KStr "text");
       if negb (is_undefined text) then
         action ← get_property (first args) (KStr "action");
         mret (negb (is_undefined action))
       else mret false
     else mret false);
  let actionButton := if isButton : bool then first args else VNull in
  let args := if isButton then shifted args else args in
  mret (mainMessage, isDismissable, actionButton, args).

(** What [el.textContent = v] makes of [v]: the attribute is a nullable
    string, so [null] and [undefined] give the empty text. *)
Definition ToText (v : value) : JS string :=
  if is_null v || is_undefined v then mret "" else ToString v.

(** lines 359-366: the test is [mainMessage !== null]. *)
Definition show_text (el : ref) (mainMessage : value) (args : list value) : JS unit :=
  if negb (is_null mainMessage) then
    let args := mainMessage :: args in
    getMessage ← gets i18n_getMessage;
    let localizedString :=
      if negb (bool_decide (getMessage args = "")) then VStr (getMessage args)
      else if truthy mainMessage then mainMessage
      else VStr (getMessage [VStr "errorShowingMessage"]) in
    texts ← getElementsByClassName el "message-text";
    text ← defined (head texts);
    content ← ToText localizedString;
    set_textContent text content
  else mret tt.

(** lines 368-373 *)
Definition show_dismiss_icon (isDismissable : value) (elDismissIcon : option ref) : JS unit :=
  match elDismissIcon with
  | Some icon =>
      if same_value isDismissable (VBool true)
      then classList_remove icon "invisible"
      else classList_add icon "invisible"
  | None => mret tt
  end.

(** lines 375-394 *)
Definition show_action_button (messagetype actionButton : value)
    (elActionButton elActionButtonLink : option ref) : JS unit :=
  match elActionButton with
  | Some button =>
      match elActionButtonLink with
      | Some link =>
          if negb (is_null actionButton) then
            action ← get_property actionButton (KStr "action");
            (if isFunction action then
               set_actionButton_hook messagetype action;;
               removeAttribute_href link
             else
               url ← ToString action;
               setAttribute_href link url;;
               set_actionButton_hook messagetype VNull);;
            text ← get_property actionButton (KStr "text");
            getMessage ← gets i18n_getMessage;
            label ←
              (if negb (bool_decide (getMessage [text] = "")) then mret (getMessage [text])
               else if is_null text then mret "" else ToString text);
            set_textContent button label;;
            classList_remove button "invisible"
          else classList_add button "invisible"
      | None => classList_add button "invisible"
      end
  | None => mret tt
  end.

(** lines 344-403: what [showMessage] does once it has the element, its
    dismiss icon, its action button and the link around the button. *)
Definition show_on (messagetype : value) (el : ref)
    (elDismissIcon elActionButton elActionButtonLink : option ref)
    (args : list value) : JS unit :=
  '(mainMessage, isDismissable, actionButton, args) ← parse_arguments args;
  show_text el mainMessage args;;
  show_dismiss_icon isDismissable elDismissIcon;;
  show_action_button messagetype actionButton elActionButton elActionButtonLink;;
  classList_remove el "invisible";;
  classList_remove el "fade-hide";;
  runHook messagetype (member HOOK_TYPE "SHOW") NoParam.

(** lines 298-404 *)
Definition showMessage (args : list value) : JS unit :=
  if bool_decide (length args < 0) then
    Logger.logError [VStr "MessageHandler.showMessage has been called without parameters"]
  else
    (if is_HTMLElement (first args) then Logger.logInfo args else Logger.log args);;
    '(messagetype, elMessage, isCustomMessage) ← getElementFromMessageType (first args);
    let args := shifted args in
    setup_custom_hooks messagetype isCustomMessage;;
    el ← element_of elMessage;
    icons ← getElementsByClassName el "icon-dismiss";
    let elDismissIcon := head icons in
    buttons ← getElementsByClassName el "message-action-button";
    let elActionButton := head buttons in
    elActionButtonLink ←
      match elActionButton with
      | Some button => gets (λ s, parentNode (document s !!! button))
      | None => mret None
      end;
    (if is_HTMLElement messagetype then
       icon ← defined elDismissIcon;
       addEventListener icon "click" dismissMessage_listener;;
       link ← defined elActionButtonLink;
       addEventListener link "click" actionButtonClicked_listener
     else mret tt);;
    if negb (truthy elMessage) then
      Logger.logError
        (VStr "The message could not be shown, because the DOM element is missing."
           :: messagetype :: args)
    else
      show_on messagetype el elDismissIcon elActionButton elActionButtonLink args.

(** lines 490-495: the write goes to [hooktype[hooktype]], not to the
    bundle [hook]. *)
Definition setHook (messagetype hooktype hookFunction : value) : JS unit :=
  hook ← gets (λ s, Map_get (hooks s) messagetype);
  put_property hooktype (ToPropertyKey hooktype) hookFunction;;
  modify (set_hooks (λ h, Map_set h messagetype hook)).

(** lines 508-528 *)
Definition registerMessageType (messagetype elElement cssClass : value) : JS unit :=
  Map_add "elementByType";;
  Map_add "styleClassByType";;
  Map_add "hooks";;
  el ← element_of elElement;
  dismissIcons ← getElementsByClassName el "icon-dismiss";
  forEach dismissIcons (λ elDismissIcon,
    addEventListener elDismissIcon "click" dismissMessage_listener);;
  actionButtons ← getElementsByClassName el "message-action-button";
  forEach actionButtons (λ elActionButton,
    elActionButtonLink ← gets (λ s, parentNode (document s !!! elActionButton));
    link ← defined elActionButtonLink;
    addEventListener link "click" actionButtonClicked_listener).

(** lines 536-538 *)
Definition init : JS unit := Map_add "hooks".

(** lines 460-476.  [cloneNode] is called with the element itself as its
    argument [deep], which is truthy. *)
Definition cloneMessage (messagetype newId : value) : JS value :=
  '(messagetype, elMessage, _) ← getElementFromMessageType messagetype;
  el ← element_of elMessage;
  closedElMessage ← cloneNode el (truthy elMessage);
  newId ← ToString newId;
  update_node closedElMessage (with_id newId);;
  hideMessage (VElem closedElMessage);;
  insertAdjacentElement_afterend el closedElMessage;;
  mret (VElem closedElMessage).

End MessageRegister.

(** ** common/modules/Messages/MessageHandler.js *)

Module MessageHandler.

(** lines 6-27, evaluated when the module is loaded, on the page [d] of that
    moment.  The keys are computed keys [[MESSAGE_LEVEL.X]], hence
    symbols. *)
Definition PREDEFINED_TYPES (d : gmap nat node) : list (propkey * value) :=
  [ (ToPropertyKey (member MESSAGE_LEVEL "ERROR"),
      VObj 11 [ (KStr "ELEMENT", getElementById d "messageError"); (KStr "CSS", VStr "error") ]);
    (ToPropertyKey (member MESSAGE_LEVEL "WARN"),
      VObj 12 [ (KStr "ELEMENT", getElementById d "messageWarning"); (KStr "CSS", VStr "warning") ]);
    (ToPropertyKey (member MESSAGE_LEVEL "INFO"),
      VObj 13 [ (KStr "ELEMENT", getElementById d "messageInfo"); (KStr "CSS", VStr "info") ]);
    (ToPropertyKey (member MESSAGE_LEVEL "SUCCESS"),
      VObj 14 [ (KStr "ELEMENT", getElementById d "messageSuccess"); (KStr "CSS", VStr "success") ]);
    (ToPropertyKey (member MESSAGE_LEVEL "LOADING"),
      VObj 15 [ (KStr "ELEMENT", getElementById d "messageLoading"); (KStr "CSS", VStr "info") ]) ].

(** lines 35-67 *)
Definition hideWarning : JS unit :=
  MessageRegister.hideMessage (member MESSAGE_LEVEL "WARN").
Definition hideInfo : JS unit :=
  MessageRegister.hideMessage (member MESSAGE_LEVEL "INFO").
Definition hideLoading : JS unit :=
  MessageRegister.hideMessage (member MESSAGE_LEVEL "LOADING").
Definition hideSuccess : JS unit :=
  MessageRegister.hideMessage (member MESSAGE_LEVEL "SUCCESS").

(** lines 87-90 *)
Definition showError (args : list value) : JS unit :=
  let args := member MESSAGE_LEVEL "ERROR" :: args in
  MessageRegister.showMessage args.

(** lines 104-107 *)
Definition showWarning (args : list value) : JS unit :=
  let args := member MESSAGE_LEVEL "WARN" :: args in
  MessageRegister.showMessage args.

(** lines 121-124 *)
Definition showInfo (args : list value) : JS unit :=
  let args := member MESSAGE_LEVEL "INFO" :: args in
  MessageRegister.showMessage args.

(** lines 138-141: the member that is read is [LOADDING]. *)
Definition showLoading (args : list value) : JS unit :=
  let args := member MESSAGE_LEVEL "LOADDING" :: args in
  MessageRegister.showMessage args.

(** lines 155-158 *)
Definition showSuccess (args : list value) : JS unit :=
  let args := member MESSAGE_LEVEL "SUCCESS" :: args in
  MessageRegister.showMessage args.

(** lines 175-178 *)
Definition setHook (messagetype hookShown hookHidden : value) : JS unit :=
  MessageRegister.setHook messagetype (member MessageRegister.HOOK_TYPE "SHOW") hookShown;;
  MessageRegister.setHook messagetype (member MessageRegister.HOOK_TYPE "HIDE") hookHidden.

(** lines 194-197 *)
Definition setDismissHooks (startHook endHook : value) : JS unit :=
  MessageRegister.setHook MessageRegister.GLOBAL_HOOK_ID
    (member MessageRegister.HOOK_TYPE "DISMISS_START") startHook;;
  MessageRegister.setHook MessageRegister.GLOBAL_HOOK_ID
    (member MessageRegister.HOOK_TYPE "DISMISS_END") endHook.

(** The [n]-th item of the array destructuring [[a, b] = str]: the [n]-th
    character of the string, or [undefined]. *)
Fixpoint character (n : nat) (str : string) : value :=
  match str, n with
  | EmptyString, _ => VUndefined
  | String c _, 0 => VStr (String c EmptyString)
  | String _ rest, S n => character n rest
  end.

(** lines 205-212.  The loop runs over [Object.keys(PREDEFINED_TYPES)] and
    destructures every key, a string, into [[messageType, messagerData]];
    [const {ELEMENT, CSS} = messagerData] then reads two properties of
    [messagerData]. *)
Definition init : JS unit :=
  d ← gets document;
  forEach (Object_keys (PREDEFINED_TYPES d)) (λ key,
    let messageType := character 0 key in
    let messagerData := character 1 key in
    elMessage ← get_property messagerData (KStr "ELEMENT");
    cssClass ← get_property messagerData (KStr "CSS");
    MessageRegister.registerMessageType messageType elMessage cssClass).

End MessageHandler.

(** ** A page and registries to run the code on *)

(** The markup of one message box:
    [<div id="messageError" class="message-box error invisible">]
    with a dismiss icon (1), the text (2), and a link (3) around the action
    button (4), and a second, empty message box
    [<div id="messageWarning" class="message-box warning invisible">]
    (5). *)
Definition page : gmap nat node :=
  <[0 := {| parentNode := None; el_id := "messageError";
            classList := ["message-box"; "error"; "invisible"]; href := None;
            textContent := ""; children := [1; 2; 3]; listeners := [] |}]>
  (<[1 := {| parentNode := Some 0; el_id := "";
             classList := ["icon-dismiss"; "invisible"]; href := None;
             textContent := ""; children := []; listeners := [] |}]>
  (<[2 := {| parentNode := Some 0; el_id := "";
             classList := ["message-text"]; href := None;
             textContent := "An error occurred."; children := []; listeners := [] |}]>
  (<[3 := {| parentNode := Some 0; el_id := "";
             classList := []; href := None;
             textContent := ""; children := [4]; listeners := [] |}]>
  (<[4 := {| parentNode := Some 3; el_id := "";
             classList := ["message-action-button"; "invisible"]; href := None;
             textContent := ""; children := []; listeners := [] |}]>
  (<[5 := {| parentNode := None; el_id := "messageWarning";
             classList := ["message-box"; "warning"; "invisible"]; href := None;
             textContent := ""; children := []; listeners := [] |}]> ∅))))).

(** The registry when the modules are loaded: three empty maps. *)
Definition loaded : state :=
  {| elementByType := []; styleClassByType := []; hooks := [];
     hooks_props := []; Map_prototype_actionButton := None; document := page;
     i18n_getMessage := λ _, "";
     console := []; called := [] |}.

(** A hook bundle with the keys of [HOOK_TEMPLATE] and the callback
    [VFun (base + i)] in its [i]-th slot. *)
Definition full_bundle (o base : nat) : value :=
  VObj o [ (KSym (HookSymbol SHOW), VFun base);
           (KSym (HookSymbol HIDE), VFun (base + 1));
           (KSym (HookSymbol DISMISS_START), VFun (base + 2));
           (KSym (HookSymbol DISMISS_END), VFun (base + 3));
           (KSym (HookSymbol ACTION_BUTTON), VFun (base + 4)) ].

(** A registry as registration and [setHook] are meant to leave it: the
    Error level bound to element 0, and a callback in every slot of the
    global bundle and of the bundle of the Error level. *)
Definition hooked : state :=
  {| elementByType := [(VSym (LevelSymbol ERROR), VElem 0)];
     styleClassByType := [(VSym (LevelSymbol ERROR), VStr "error")];
     hooks := [(MessageRegister.GLOBAL_HOOK_ID, full_bundle 21 100);
               (VSym (LevelSymbol ERROR), full_bundle 22 200)];
     hooks_props := []; Map_prototype_actionButton := None; document := page;
     i18n_getMessage := λ _, "";
     console := []; called := [] |}.

(** The same registry with the bundles as [registerMessageType] passes
    them: [HOOK_TEMPLATE], all slots [null]. *)
Definition registered : state :=
  {| elementByType := [(VSym (LevelSymbol ERROR), VElem 0)];
     styleClassByType := [(VSym (LevelSymbol ERROR), VStr "error")];
     hooks := [(MessageRegister.GLOBAL_HOOK_ID, MessageRegister.HOOK_TEMPLATE);
               (VSym (LevelSymbol ERROR), MessageRegister.HOOK_TEMPLATE)];
     hooks_props := []; Map_prototype_actionButton := None; document := page;
     i18n_getMessage := λ _, "";
     console := []; called := [] |}.

(** Two levels bound to one and the same element. *)
Definition shared : state :=
  {| elementByType := [(VSym (LevelSymbol ERROR), VElem 0);
                       (VSym (LevelSymbol WARN), VElem 0)];
     styleClassByType := []; hooks := [];
     hooks_props := []; Map_prototype_actionButton := None; document := page;
     i18n_getMessage := λ _, "";
     console := []; called := [] |}.

(** The same page with a twin of the second message box: element 6 is
    another element with the markup of element 5. *)
Definition twin_page : gmap nat node := <[6 := page !!! 5]> page.

(** Two levels bound to the two twins. *)
Definition twins : state :=
  {| elementByType := [(VSym (LevelSymbol WARN), VElem 5);
                       (VSym (LevelSymbol INFO), VElem 6)];
     styleClassByType := []; hooks := [];
     hooks_props := []; Map_prototype_actionButton := None; document := twin_page;
     i18n_getMessage := λ _, "";
     console := []; called := [] |}.

(** Two levels bound to two elements. *)
Definition distinct : state :=
  {| elementByType := [(VSym (LevelSymbol ERROR), VElem 0);
                       (VSym (LevelSymbol WARN), VElem 5)];
     styleClassByType := []; hooks := [];
     hooks_props := []; Map_prototype_actionButton := None; document := page;
     i18n_getMessage := λ _, "";
     console := []; called := [] |}.

(** The Error message shown with a dismiss icon, as the user sees it before
    a dismiss click. *)
Definition shown : state :=
  (MessageRegister.showMessage [member MESSAGE_LEVEL "ERROR"; VStr "hi"; VBool true] hooked).1.

(** ... and after the click on its dismiss icon (element 1). *)
Definition clicked : state :=
  (MessageRegister.dismissMessage (Event "click" 1 1) shown).1.

(** ** Notions used in the statements *)

(** [m] never leaves the relation [R] between the state it starts from and
    the state it ends in, whether it returns or throws. *)
Definition keeps {A} (R : relation state) (m : JS A) : Prop :=
  ∀ s, R s (m s).1.

(** The states agree on the observation [f]. *)
Definition same {B} (f : state → B) : relation state :=
  λ s s', f s' = f s.

(** A hook bundle without a property named ["hooktype"].  Every bundle that
    has the keys of [HOOK_TEMPLATE], the five symbols of [HOOK_TYPE], is of
    this kind, whatever its slots hold. *)
Definition no_hooktype_property (v : value) : Prop :=
  match v with
  | VObj _ props => own_property (KStr "hooktype") props = None
  | _ => True
  end.

Definition bundles_of_template (h : Map) : Prop :=
  Forall (λ kv, no_hooktype_property kv.2) h.

(** The map of hooks stays, and no callback is invoked if the bundles are
    as in [bundles_of_template]. *)
Definition quiet : relation state :=
  λ s s', hooks s' = hooks s ∧ (bundles_of_template (hooks s) → called s' = called s).

(** A message type that [getElementFromMessageType] does not resolve: an
    element that is no message box, or another value that is not a key of
    [elementByType]. *)
Definition unknown (s : state) (t : value) : Prop :=
  match t with
  | VElem r => tokens_contains "message-box" (classList (document s !!! r)) = false
  | _ => Map_has (elementByType s) t = false
  end.

(** The keys that the iterator [elementByType.keys()] yields before it
    yields [t]; all keys, if [t] is none of them. *)
Fixpoint keys_before (t : value) (keys : list value) : list value :=
  match keys with
  | [] => []
  | k :: rest => if same_value k t then [] else k :: keys_before t rest
  end.

(** The parts of a message box that [showMessage] looks up (lines
    326-331). *)
Definition dismiss_icon_of (d : gmap nat node) (el : nat) : option nat :=
  head (elementsByClassName d el "icon-dismiss").
Definition action_button_of (d : gmap nat node) (el : nat) : option nat :=
  head (elementsByClassName d el "message-action-button").
Definition action_link_of (d : gmap nat node) (el : nat) : option nat :=
  match action_button_of d el with
  | Some button => parentNode (d !!! button)
  | None => None
  end.

(** The states agree on the observation [proj] of the element [r0]. *)
Definition observing {B} (proj : node → B) (r0 : nat) : relation state :=
  same (λ s, proj (document s !!! r0)).

Definition ignores_classList {B} (proj : node → B) : Prop :=
  ∀ f n, proj (with_classList f n) = proj n.

(** ** The calls the modules receive *)

(** A call of an exported function by host code, or of a listener by the
    browser. *)
Inductive api_call :=
| ShowMessage (args : list value)
| HideMessage (messagetype : value)
| CloneMessage (messagetype newId : value)
| SetHook (messagetype hooktype hookFunction : value)
| RegisterMessageType (messagetype elElement cssClass : value)
| RegisterInit
| ShowError (args : list value)
| ShowWarning (args : list value)
| ShowInfo (args : list value)
| ShowLoading (args : list value)
| ShowSuccess (args : list value)
| HideWarning
| HideInfo
| HideLoading
| HideSuccess
| FacadeSetHook (messagetype hookShown hookHidden : value)
| SetDismissHooks (startHook endHook : value)
| FacadeInit
| Deliver (f : listener) (ev : event).

Definition perform (c : api_call) : JS unit :=
  match c with
  | ShowMessage args => MessageRegister.showMessage args
  | HideMessage messagetype => MessageRegister.hideMessage messagetype
  | CloneMessage messagetype newId =>
      MessageRegister.cloneMessage messagetype newId;; mret tt
  | SetHook messagetype hooktype hookFunction =>
      MessageRegister.setHook messagetype hooktype hookFunction
  | RegisterMessageType messagetype elElement cssClass =>
      MessageRegister.registerMessageType messagetype elElement cssClass
  | RegisterInit => MessageRegister.init
  | ShowError args => MessageHandler.showError args
  | ShowWarning args => MessageHandler.showWarning args
  | ShowInfo args => MessageHandler.showInfo args
  | ShowLoading args => MessageHandler.showLoading args
  | ShowSuccess args => MessageHandler.showSuccess args
  | HideWarning => MessageHandler.hideWarning
  | HideInfo => MessageHandler.hideInfo
  | HideLoading => MessageHandler.hideLoading
  | HideSuccess => MessageHandler.hideSuccess
  | FacadeSetHook messagetype hookShown hookHidden =>
      MessageHandler.setHook messagetype hookShown hookHidden
  | SetDismissHooks startHook endHook => MessageHandler.setDismissHooks startHook endHook
  | FacadeInit => MessageHandler.init
  | Deliver f ev => MessageRegister.run_listener f ev
  end.

(** One call after the other; a call that throws ends there, and the next
    call finds the state as the throw left it. *)
Fixpoint run (calls : list api_call) (s : state) : state :=
  match calls with
  | [] => s
  | c :: rest => run rest (perform c s).1
  end.

(** The registry reads the same: the two maps of elements and style
    classes are as they were and [hooks.get] gives what it gave. *)
Definition frozen : relation state :=
  λ s s', elementByType s' = elementByType s
          ∧ styleClassByType s' = styleClassByType s
          ∧ ∀ k, Map_get (hooks s') k = Map_get (hooks s) k.

(** If the bundles are of the template they stay so, and no callback is
    invoked. *)
Definition mute : relation state :=
  λ s s', bundles_of_template (hooks s) →
          bundles_of_template (hooks s') ∧ called s' = called s.

(** The page after lines 429-437 of [hideMessage] have run on the element
    [el]. *)
Definition hidden (el : nat) (d : gmap nat node) : gmap nat node :=
  let d1 := <[el := with_classList (tokens_add "invisible") (d !!! el)]> d in
  match dismiss_icon_of d el with
  | Some icon => <[icon := with_classList (tokens_add "invisible") (d1 !!! icon)]> d1
  | None => d1
  end.

(** The page [d'] extends the page [d]: what is of [d] is as in [d], and
    the children of an element that is not of [d] are not of [d]. *)
Definition extends (d d' : gmap nat node) : Prop :=
  d ⊆ d' ∧ ∀ x c, x ∉ dom d → c ∈ children (d' !!! x) → c ∉ dom d.

(** The Warn level of [distinct], shown. *)
Definition warned : state :=
  (MessageRegister.showMessage [member MESSAGE_LEVEL "WARN"] distinct).1.

(** * Properties *)

(** ** Values and maps *)

Lemma same_value_refl (a : value) : same_value a a = true.
Proof.
  revert a. fix IH 1. intros [ | | b | s | y | r | f | e | o props]; simpl;
    rewrite ?bool_decide_eq_true_2 by done; try done.
  induction props as [|[k v] props IHp]; [done|].
  rewrite bool_decide_eq_true_2 by done. rewrite IH. simpl. exact IHp.
Qed.

Lemma same_value_eq (a b : value) : same_value a b = true → a = b.
Proof.
  revert a b. fix IH 1.
  intros [ | | x | x | x | x | x | x | o p] [ | | y | y | y | y | y | y | o' q];
    simpl; try done; intros H.
  - apply bool_decide_eq_true_1 in H. by subst.
  - apply bool_decide_eq_true_1 in H. by subst.
  - apply bool_decide_eq_true_1 in H. by subst.
  - apply bool_decide_eq_true_1 in H. by subst.
  - apply bool_decide_eq_true_1 in H. by subst.
  - destruct x as [t1 a1 c1], y as [t2 a2 c2]. simpl in H.
    apply andb_true_iff in H as [H H3]. apply andb_true_iff in H as [H1 H2].
    apply bool_decide_eq_true_1 in H1, H2, H3. by subst.
  - apply andb_true_iff in H as [H1 H2]. apply bool_decide_eq_true_1 in H1. subst o'.
    f_equal. revert q H2. induction p as [|[k v] p IHp]; intros [|[k' v'] q] H2; try done.
    apply andb_true_iff in H2 as [H2 H3]. apply andb_true_iff in H2 as [H1 H2].
    apply bool_decide_eq_true_1 in H1. subst k'.
    apply IH in H2. subst v'. f_equal. by apply IHp.
Qed.

Lemma Map_has_key (m : Map) (k : value) : k ∈ Map_keys m → Map_has m k = true.
Proof.
  unfold Map_keys. induction m as [|[k' v] m IHm]; simpl.
  - by intros ?%elem_of_nil.
  - intros [->|H]%elem_of_cons; [by rewrite same_value_refl|].
    rewrite IHm by done. apply orb_true_r.
Qed.

(** ** Running the monad *)

Lemma bind_Return {A B} (m : JS A) (f : A → JS B) (s s' : state) (b : B) :
  (m ≫= f) s = (s', Return b) →
  ∃ a s1, m s = (s1, Return a) ∧ f a s1 = (s', Return b).
Proof.
  unfold mbind, JS_bind. destruct (m s) as [s1 [a|e]]; [eauto|done].
Qed.

Lemma bind_run {A B} (m : JS A) (f : A → JS B) (s s1 : state) (a : A) :
  m s = (s1, Return a) → (m ≫= f) s = f a s1.
Proof. unfold mbind, JS_bind. by intros ->. Qed.

Lemma bind_throw {A B} (m : JS A) (f : A → JS B) (s s1 : state) (e : exn) :
  m s = (s1, Throw e) → (m ≫= f) s = (s1, Throw e).
Proof. unfold mbind, JS_bind. by intros ->. Qed.

#[global] Instance same_preorder {B} (f : state → B) : PreOrder (same f).
Proof. split; [done|]. unfold same. intros x y z H1 H2. congruence. Qed.

#[global] Instance quiet_preorder : PreOrder quiet.
Proof.
  split; [done|]. unfold quiet. intros x y z [H1 H2] [H3 H4]. split; [congruence|].
  intros Hb. rewrite H4, H2; [done..|]. by rewrite H1.
Qed.

#[global] Instance observing_preorder {B} (proj : node → B) (r0 : nat) :
  PreOrder (observing proj r0).
Proof. unfold observing. apply _. Qed.

Section keeps.
Context (R : relation state) `{!PreOrder R}.

Lemma keeps_ret {A} (a : A) : keeps R (mret a).
Proof. intros s. reflexivity. Qed.

Lemma keeps_throw {A} (e : exn) : keeps R (@throw A e).
Proof. intros s. reflexivity. Qed.

Lemma keeps_gets {A} (f : state → A) : keeps R (gets f).
Proof. intros s. reflexivity. Qed.

Lemma keeps_modify (g : state → state) : (∀ s, R s (g s)) → keeps R (modify g).
Proof. intros H s. apply H. Qed.

Lemma keeps_bind {A B} (m : JS A) (f : A → JS B) :
  keeps R m → (∀ a, keeps R (f a)) → keeps R (m ≫= f).
Proof.
  intros Hm Hf s. unfold mbind, JS_bind. specialize (Hm s).
  destruct (m s) as [s1 [a|e]]; simpl in *; [|done].
  etrans; [exact Hm|]. apply Hf.
Qed.

Lemma keeps_forEach {A} (l : list A) (body : A → JS unit) :
  (∀ x, keeps R (body x)) → keeps R (forEach l body).
Proof.
  intros H. induction l as [|x l IHl]; simpl; [apply keeps_ret|].
  apply keeps_bind; [apply H|]. intros _. exact IHl.
Qed.

Lemma keeps_Iterator_find (p : value → JS bool) (l : list value) :
  (∀ x, keeps R (p x)) → keeps R (Iterator_find p l).
Proof.
  intros H. induction l as [|x l IHl]; simpl; [apply keeps_ret|].
  apply keeps_bind; [apply H|]. intros [|]; [apply keeps_ret|exact IHl].
Qed.

End keeps.

(** ** Frame rules *)

(** One update of an element leaves an observation [proj] of element [r0]
    alone if it is an update of another element or does not change
    [proj]. *)
Lemma update_node_other {B} (proj : node → B) (r r0 : nat) (g : node → node)
    (d : gmap nat node) :
  r ≠ r0 ∨ (∀ n, proj (g n) = proj n) →
  proj (<[r := g (d !!! r)]> d !!! r0) = proj (d !!! r0).
Proof.
  intros H. destruct (decide (r = r0)) as [->|Hne].
  - rewrite lookup_total_insert_eq. destruct H as [H|H]; [done|apply H].
  - by rewrite lookup_total_insert_ne.
Qed.

Ltac frame_leaf :=
  unfold observing, same, quiet; simpl;
  try done;
  try (apply update_node_other; first [by left | by right | right; by intros []]).

Ltac frame_step :=
  lazymatch goal with
  | |- keeps _ (mret _) => apply keeps_ret; tc_solve
  | |- keeps _ (throw _) => apply keeps_throw; tc_solve
  | |- keeps _ (gets _) => apply keeps_gets; tc_solve
  | |- keeps _ (modify _) => apply keeps_modify; intros ?; frame_leaf
  | |- keeps _ (mbind _ _) => apply keeps_bind; [tc_solve | | intros ?]
  | |- keeps _ (forEach _ _) => apply keeps_forEach; [tc_solve | intros ?]
  | |- keeps _ (Iterator_find _ _) => apply keeps_Iterator_find; [tc_solve | intros ?]
  | |- keeps _ (if ?c then _ else _) => destruct c
  | |- keeps _ (match ?x with _ => _ end) => destruct x
  | |- keeps _ (let (_, _) := ?x in _) => destruct x
  end.

Ltac frame := repeat (frame_step; simpl).

Create HintDb frames.

Section frames.
Context (R : relation state) `{!PreOrder R}.
Lemma keeps_element_of (v : value) : keeps R (element_of v).
Proof. unfold element_of. frame. Qed.
Lemma keeps_get_property (v : value) (k : propkey) : keeps R (get_property v k).
Proof. unfold get_property. frame. Qed.
Lemma keeps_ToString (v : value) : keeps R (ToString v).
Proof. unfold ToString. frame. Qed.
Lemma keeps_isEqualNode (a b : value) : keeps R (isEqualNode a b).
Proof. unfold isEqualNode. frame. Qed.
Lemma keeps_classList_contains (r : nat) (c : string) : keeps R (classList_contains r c).
Proof. unfold classList_contains. frame. Qed.
Lemma keeps_getElementsByClassName (r : nat) (c : string) :
  keeps R (getElementsByClassName r c).
Proof. unfold getElementsByClassName. frame. Qed.

Lemma keeps_getCustomMessageType (v : value) :
  keeps R (MessageRegister.getCustomMessageType v).
Proof.
  unfold MessageRegister.getCustomMessageType.
  apply keeps_bind; [done|apply keeps_element_of|intros el].
  apply keeps_bind; [done|apply keeps_classList_contains|intros b].
  destruct b; simpl; frame.
Qed.

Lemma keeps_getMessageTypeFromElement (v : value) :
  keeps R (MessageRegister.getMessageTypeFromElement v).
Proof.
  unfold MessageRegister.getMessageTypeFromElement.
  apply keeps_bind; [done|frame|intros m].
  apply keeps_bind; [done| |intros mt].
  - apply keeps_Iterator_find; [done|]. intros k.
    destruct (negb _); [frame|apply keeps_isEqualNode].
  - destruct (is_undefined mt); [apply keeps_getCustomMessageType|frame].
Qed.

Lemma keeps_getElementFromMessageType (v : value) :
  keeps R (MessageRegister.getElementFromMessageType v).
Proof.
  unfold MessageRegister.getElementFromMessageType.
  destruct (is_HTMLElement v).
  - apply keeps_bind; [done|apply keeps_getCustomMessageType|intros mt]. frame.
  - apply keeps_bind; [done|frame|intros m].
    destruct (Map_has m v); [frame|].
    apply keeps_bind; [done|apply keeps_ToString|intros _]. frame.
Qed.

Lemma keeps_parse_arguments (args : list value) :
  keeps R (MessageRegister.parse_arguments args).
Proof.
  unfold MessageRegister.parse_arguments.
  apply keeps_bind; [done| |intros b; frame].
  destruct (negb _); [|frame].
  apply keeps_bind; [done|apply keeps_get_property|intros t].
  destruct (negb _); [|frame].
  apply keeps_bind; [done|apply keeps_get_property|intros a]. frame.
Qed.

End frames.

(** Frame rules for the observation [proj] of one element [r0]. *)
Section observe.
Context {B : Type} (proj : node → B) (r0 : nat).
Context (ignores_href : ∀ h n, proj (with_href h n) = proj n).
Context (ignores_parentNode : ∀ p n, proj (with_parentNode p n) = proj n).


Lemma observe_update_node (r : nat) (g : node → node) :
  r ≠ r0 ∨ (∀ n, proj (g n) = proj n) → keeps (observing proj r0) (update_node r g).
Proof.
  intros H. unfold update_node. apply keeps_modify. intros s.
  unfold observing, same. simpl. by apply update_node_other.
Qed.

Lemma observe_classList_add (r : nat) (c : string) :
  r ≠ r0 ∨ ignores_classList proj → keeps (observing proj r0) (classList_add r c).
Proof. intros [H|H]; apply observe_update_node; [by left|right; apply H]. Qed.




End observe.

(** Unfolding the definition at the head of the computation. *)
Ltac head_of t := lazymatch t with ?f _ => head_of f | _ => t end.

Ltac frame_open :=
  lazymatch goal with
  | |- keeps _ ?m => let h := head_of m in unfold h
  end.

Ltac frame_all := repeat first [ solve [eauto 2 with frames] | frame_step; simpl | frame_open ].

(** ** [runHook] *)

Lemma runHook_at_keeps (R : relation state) `{!PreOrder R} depth mt ht p :
  (∀ g s, R s (set_called g s)) →
  keeps R (MessageRegister.runHook_at depth mt ht p).
Proof.
  intros HR. revert ht. induction depth as [|depth IH]; intros ht; simpl.
  - apply keeps_throw; done.
  - apply keeps_bind; [done| |intros _].
    + destruct (negb _); [apply IH|apply keeps_ret; done].
    + apply keeps_bind; [done|apply keeps_gets; done|intros h].
      apply keeps_bind; [done|apply keeps_get_property; done|intros hook].
      destruct (_ && _); [|apply keeps_ret; done].
      unfold MessageRegister.call. destruct hook; try (apply keeps_throw; done).
      apply keeps_modify. intros s. apply HR.
Qed.

Lemma runHook_keeps (R : relation state) `{!PreOrder R} mt ht p :
  (∀ g s, R s (set_called g s)) →
  keeps R (MessageRegister.runHook mt ht p).
Proof. apply runHook_at_keeps; done. Qed.

Lemma bundle_of_template (h : Map) (k : value) :
  bundles_of_template h → no_hooktype_property (Map_get h k).
Proof.
  unfold bundles_of_template. induction h as [|[k' v] h IH]; simpl; [done|].
  intros [H1 H2]%Forall_cons. destruct (same_value k k'); [exact H1|by apply IH].
Qed.

(** What [runHook] reads from a bundle is its property ["hooktype"]; a
    bundle of the template has none, whatever its slots hold. *)
Lemma read_hook_of_template (h : Map) (mt : value) (s : state) :
  bundles_of_template h →
  get_property (Map_get h mt) (KStr "hooktype") s = (s, Return VUndefined)
  ∨ ∃ e, get_property (Map_get h mt) (KStr "hooktype") s = (s, Throw e).
Proof.
  intros Hb. pose proof (bundle_of_template h mt Hb) as Hn.
  destruct (Map_get h mt); simpl in *; eauto.
  rewrite Hn. by left.
Qed.

Lemma runHook_at_no_call depth mt ht p s :
  bundles_of_template (hooks s) →
  called (MessageRegister.runHook_at depth mt ht p s).1 = called s.
Proof.
  revert ht s. induction depth as [|depth IH]; intros ht s Hb; simpl; [done|].
  unfold mbind, JS_bind.
  assert (∃ s1 o, (if negb (same_value ht MessageRegister.GLOBAL_HOOK_ID)
            then MessageRegister.runHook_at depth mt MessageRegister.GLOBAL_HOOK_ID p
            else mret ()) s = (s1, o) ∧ called s1 = called s ∧ hooks s1 = hooks s)
    as (s1 & o & -> & Hc & Hh).
  { destruct (negb _).
    - destruct (MessageRegister.runHook_at depth mt MessageRegister.GLOBAL_HOOK_ID p s)
        as [s1 o] eqn:E. exists s1, o. split; [done|]. split.
      + specialize (IH MessageRegister.GLOBAL_HOOK_ID s Hb). by rewrite E in IH.
      + pose proof (runHook_at_keeps (same hooks) depth mt
          MessageRegister.GLOBAL_HOOK_ID p (λ _ _, eq_refl) s) as H.
        by rewrite E in H.
    - by exists s, (Return ()). }
  destruct o as [[]|e]; [|done]. simpl.
  rewrite <- Hh in Hb.
  destruct (read_hook_of_template (hooks s1) mt s1 Hb) as [->|[e ->]]; simpl; done.
Qed.

Lemma runHook_quiet mt ht p : keeps quiet (MessageRegister.runHook mt ht p).
Proof.
  intros s. split.
  - apply (runHook_keeps (same hooks)). done.
  - intros Hb. by apply runHook_at_no_call.
Qed.

#[global] Hint Resolve runHook_quiet : frames.

Lemma showMessage_quiet args : keeps quiet (MessageRegister.showMessage args).
Proof.
  unfold MessageRegister.showMessage. frame_all.
Qed.

(** ** The claims about hooks *)

(** C1.  [showMessage] invokes no Show hook: on a registry whose bundles
    have the keys of [HOOK_TEMPLATE], a call of [showMessage], whether it
    returns or throws, has invoked no callback at all, neither the one in
    the Show slot of the global bundle nor the one in the Show slot of the
    type.  (Line 403 does call [runHook(messagetype, HOOK_TYPE.SHOW)], but
    [runHook] reads the property named ["hooktype"] of the bundle, which no
    bundle has.) *)
Theorem showMessage_invokes_no_hook (s s' : state) (args : list value) (o : outcome unit) :
  bundles_of_template (hooks s) →
  MessageRegister.showMessage args s = (s', o) →
  called s' = called s.
Proof.
  intros Hb Hrun. pose proof (showMessage_quiet args s) as [_ Hq].
  rewrite Hrun in Hq. by apply Hq.
Qed.

(** A bundle whose keys are symbols of [HOOK_TYPE], as those of
    [HOOK_TEMPLATE] are, has no property named ["hooktype"]. *)
Lemma template_keys_no_hooktype (o : nat) (props : list (propkey * value)) :
  Forall (λ kv, ∃ h, kv.1 = KSym (HookSymbol h)) props →
  no_hooktype_property (VObj o props).
Proof.
  simpl. induction props as [|[k v] props IH]; [done|].
  intros [[h Hk] Hrest]%Forall_cons. simpl in Hk |- *. subst k.
  rewrite bool_decide_eq_false_2 by done. by apply IH.
Qed.

Lemma hooked_bundles : bundles_of_template (hooks hooked).
Proof. repeat constructor. Defined.

Lemma showMessage_invokes_no_hook_witness :
  own_property (KSym (HookSymbol SHOW))
    match Map_get (hooks hooked) (member MESSAGE_LEVEL "ERROR") with
    | VObj _ props => props
    | _ => []
    end = Some (VFun 200)
  ∧ called (MessageRegister.showMessage [member MESSAGE_LEVEL "ERROR"; VStr "hi"] hooked).1
    = called hooked.
Proof.
  split; [reflexivity|].
  apply (showMessage_invokes_no_hook hooked _ [member MESSAGE_LEVEL "ERROR"; VStr "hi"]
           (Return tt)).
  - exact hooked_bundles.
  - vm_compute. reflexivity.
Defined.

(** C3 does not hold of the code.  With a callback in the Show slot of the global bundle
    and one in the Show slot of the bundle of the Error level,
    [runHook(ERROR, SHOW)] returns without having invoked either: the state
    is as before, [called] is still empty. *)
Theorem runHook_invokes_neither_hook :
  get_property (Map_get (hooks hooked) MessageRegister.GLOBAL_HOOK_ID)
      (KSym (HookSymbol SHOW)) hooked = (hooked, Return (VFun 100))
  ∧ get_property (Map_get (hooks hooked) (member MESSAGE_LEVEL "ERROR"))
      (KSym (HookSymbol SHOW)) hooked = (hooked, Return (VFun 200))
  ∧ MessageRegister.runHook (member MESSAGE_LEVEL "ERROR")
      (member MessageRegister.HOOK_TYPE "SHOW") NoParam hooked = (hooked, Return tt)
  ∧ called hooked = [].
Proof. repeat split. Qed.

(** On a registry with bundles of the template, [runHook] invokes nothing,
    for every type, hook kind and argument. *)
Lemma runHook_invokes_nothing (s : state) (mt ht : value) (p : hook_param) :
  bundles_of_template (hooks s) →
  called (MessageRegister.runHook mt ht p s).1 = called s.
Proof. intros Hb. by apply runHook_at_no_call. Qed.

Lemma Map_get_set_same (m : Map) (k k' : value) :
  Map_get (Map_set m k (Map_get m k)) k' = Map_get m k'.
Proof.
  induction m as [|[k0 v0] m IH]; simpl.
  - by destruct (same_value k' k).
  - destruct (same_value k k0) eqn:Hk; simpl; [done|].
    by rewrite IH.
Qed.

Lemma setHook_symbol_throws (s : state) (messagetype hookFunction : value) (h : hook_kind) :
  MessageRegister.setHook messagetype (VSym (HookSymbol h)) hookFunction s
  = (s, Throw (TypeError "can't assign to property on a primitive")).
Proof. reflexivity. Qed.

(** C4 does not hold of the code.  Whatever type, hook kind and function
    [setHook] is given, and whether it returns or throws, afterwards
    [hooks.get] gives for every type what it gave before: the function is
    stored in no bundle.  (The write of line 493 goes to [hooktype]; with a
    symbol of [HOOK_TYPE] it throws, see [setHook_symbol_throws].) *)
Theorem setHook_stores_nothing (s : state) (messagetype hooktype hookFunction k : value) :
  Map_get (hooks (MessageRegister.setHook messagetype hooktype hookFunction s).1) k
  = Map_get (hooks s) k.
Proof.
  unfold MessageRegister.setHook, mbind, JS_bind. simpl.
  destruct hooktype; simpl; try done; apply Map_get_set_same.
Qed.

(** ... so the dispatch that follows finds the slot as before:
    [setHook(ERROR, SHOW, f)] and then [runHook(ERROR, SHOW)] on the
    registered Error level does not invoke [f]. *)
Lemma setHook_then_runHook :
  let s1 := (MessageRegister.setHook (member MESSAGE_LEVEL "ERROR")
               (member MessageRegister.HOOK_TYPE "SHOW") (VFun 7) registered).1 in
  s1 = registered
  ∧ MessageRegister.runHook (member MESSAGE_LEVEL "ERROR")
      (member MessageRegister.HOOK_TYPE "SHOW") NoParam s1 = (registered, Return tt).
Proof. split; reflexivity. Qed.

(** Also the facade's [setHook] and [setDismissHooks] stop at their first
    call of the registry's [setHook]. *)
Lemma facade_setHook_throws (s : state) (messagetype onShow onHide : value) :
  MessageHandler.setHook messagetype onShow onHide s
  = (s, Throw (TypeError "can't assign to property on a primitive")).
Proof. reflexivity. Qed.

Lemma setDismissHooks_throws (s : state) (onStart onEnd : value) :
  MessageHandler.setDismissHooks onStart onEnd s
  = (s, Throw (TypeError "can't assign to property on a primitive")).
Proof. reflexivity. Qed.

(** ** The claims about registration and the facade *)

Lemma registerMessageType_throws (s : state) (messagetype elElement cssClass : value) :
  MessageRegister.registerMessageType messagetype elElement cssClass s
  = (s, Throw (TypeError "elementByType.add is not a function")).
Proof. reflexivity. Qed.

Lemma register_init_throws (s : state) :
  MessageRegister.init s = (s, Throw (TypeError "hooks.add is not a function")).
Proof. reflexivity. Qed.

Lemma predefined_types_have_no_string_key (d : gmap nat node) :
  Object_keys (MessageHandler.PREDEFINED_TYPES d) = [].
Proof. reflexivity. Qed.

Lemma init_registers_nothing (s : state) : MessageHandler.init s = (s, Return tt).
Proof. reflexivity. Qed.

(** C2 does not hold of the code.  The facade's [init()] registers nothing: run on the
    registry as it is when the modules are loaded it returns with the
    registry unchanged, and afterwards none of the five levels resolves:
    the lookup of each throws, and what it throws is the [TypeError] of the
    template literal of line 140, which cannot convert the symbol of the
    level to a string for the message of the [Error] it is to throw. *)
Theorem init_registers_no_level (l : level) :
  MessageHandler.init loaded = (loaded, Return tt)
  ∧ MessageRegister.getElementFromMessageType (VSym (LevelSymbol l))
      (MessageHandler.init loaded).1
    = (loaded, Throw (TypeError "can't convert symbol to string")).
Proof. split; [reflexivity|]. by destruct l. Qed.

(** C7 does not hold of the code.  Four of the five entry points prepend their level;
    [showLoading] prepends [undefined], the value of
    [MESSAGE_LEVEL.LOADDING]. *)
Theorem show_entry_points_prepend (args : list value) :
  MessageHandler.showError args
    = MessageRegister.showMessage (VSym (LevelSymbol ERROR) :: args)
  ∧ MessageHandler.showWarning args
    = MessageRegister.showMessage (VSym (LevelSymbol WARN) :: args)
  ∧ MessageHandler.showInfo args
    = MessageRegister.showMessage (VSym (LevelSymbol INFO) :: args)
  ∧ MessageHandler.showSuccess args
    = MessageRegister.showMessage (VSym (LevelSymbol SUCCESS) :: args)
  ∧ MessageHandler.showLoading args
    = MessageRegister.showMessage (VUndefined :: args).
Proof. repeat split. Qed.

(** [showLoading("x")] with the Loading level registered: the lookup of
    [undefined] throws, and the element of the Loading level stays as it
    is. *)
Lemma showLoading_fails :
  let s := {| elementByType := [(VSym (LevelSymbol LOADING), VElem 0)];
              styleClassByType := []; hooks := hooks registered; hooks_props := [];
              Map_prototype_actionButton := None;
              document := page; i18n_getMessage := λ _, ""; console := []; called := [] |} in
  (MessageHandler.showLoading [VStr "x"] s).2
    = Throw (Error "message type is/belong to an unknown element" VUndefined)
  ∧ document (MessageHandler.showLoading [VStr "x"] s).1 = page.
Proof. split; reflexivity. Qed.

(** ** The claims about errors *)


(** The lookup of an unknown type throws and leaves the state as it is: a
    [TypeError] for a symbol, the [Error] about the type for every other
    value. *)
Lemma getElementFromMessageType_unknown (s : state) (t : value) :
  unknown s t →
  ∃ e, MessageRegister.getElementFromMessageType t s = (s, Throw e)
       ∧ match t with
         | VSym _ => e = TypeError "can't convert symbol to string"
         | _ => ∃ msg, e = Error msg t
         end.
Proof.
  intros Hu. unfold MessageRegister.getElementFromMessageType.
  destruct t as [| |[]| | | | | |]; simpl in Hu |- *;
    try (eexists; unfold mbind, JS_bind; simpl; rewrite Hu; simpl;
         split; [reflexivity|by eexists]).
  eexists. unfold MessageRegister.getCustomMessageType, mbind, JS_bind. simpl.
  rewrite Hu. simpl. split; [reflexivity|by eexists].
Qed.



(** With no argument at all the guard [arguments.length < 0] does not
    fire, and the call ends in the lookup of [undefined], which throws the
    [Error] about it. *)
Lemma showMessage_without_arguments (s : state) :
  Map_has (elementByType s) VUndefined = false →
  MessageRegister.showMessage [] s
  = (set_console (λ c, c ++ [(LOG, [])]) s,
     Throw (Error "message type is/belong to an unknown element" VUndefined)).
Proof.
  intros Hu. unfold MessageRegister.showMessage, MessageRegister.getElementFromMessageType.
  simpl. unfold mbind, JS_bind; simpl. rewrite Hu. reflexivity.
Qed.

(** A type registered with [null] for its element (no element of that id
    in the page): the call throws where it first uses the element, before
    the test [!elMessage] is reached. *)
Lemma showMessage_missing_element :
  let s := {| elementByType := [(VSym (LevelSymbol INFO), getElementById page "messageInfo")];
              styleClassByType := []; hooks := hooks registered; hooks_props := [];
              Map_prototype_actionButton := None;
              document := page; i18n_getMessage := λ _, ""; console := []; called := [] |} in
  getElementById page "messageInfo" = VNull
  ∧ (MessageRegister.showMessage [member MESSAGE_LEVEL "INFO"; VStr "hi"] s).2
    = Throw (TypeError "not an element").
Proof. split; reflexivity. Qed.

(** ** The claim about the dismiss flow *)

(** C6 does not hold of the code.  The Error message is shown and every slot of the global
    bundle and of the bundle of the Error level holds a callback.  The click
    on the dismiss icon starts the fade-out and attaches the completion
    listener, but invokes no callback.  The completion event then hides the
    element and throws in [hideMessage], in its call of [runHook] with the
    element as type: no callback is invoked and the listener stays
    attached, so that a second completion event runs the handler again. *)
Theorem dismiss_flow_invokes_no_hook :
  let click := Event "click" 1 1 in
  let transitionend := Event "transitionend" 0 0 in
  let ended := MessageRegister.dismissMessage transitionend clicked in
  get_property (Map_get (hooks shown) MessageRegister.GLOBAL_HOOK_ID)
    (KSym (HookSymbol DISMISS_START)) shown = (shown, Return (VFun 102))
  ∧ get_property (Map_get (hooks shown) MessageRegister.GLOBAL_HOOK_ID)
    (KSym (HookSymbol DISMISS_END)) shown = (shown, Return (VFun 103))
  ∧ classList (document shown !!! 0) = ["message-box"; "error"]
  ∧ MessageRegister.dismissMessage click shown
    = (clicked, Return tt)
  ∧ called clicked = []
  ∧ classList (document clicked !!! 0) = ["message-box"; "error"; "fade-hide"]
  ∧ listeners (document clicked !!! 0) = [("transitionend", dismissMessage_listener)]
  ∧ ended.2 = Throw (TypeError "can't access property of undefined or null")
  ∧ called ended.1 = []
  ∧ classList (document ended.1 !!! 0) = ["message-box"; "error"; "fade-hide"; "invisible"]
  ∧ listeners (document ended.1 !!! 0) = [("transitionend", dismissMessage_listener)]
  ∧ (MessageRegister.dismissMessage transitionend ended.1).2
    = Throw (TypeError "can't access property of undefined or null").
Proof. repeat split; vm_compute; reflexivity. Qed.

(** ** The claim about the two lookups *)

Lemma equal_nodes_refl (fuel : nat) (d : gmap nat node) (a : nat) :
  equal_nodes fuel d a a = true.
Proof.
  revert a. induction fuel as [|fuel IH]; intros a; simpl; [done|].
  rewrite !bool_decide_eq_true_2 by done. simpl.
  induction (children (d !!! a)) as [|c l IHl]; simpl; [done|].
  by rewrite IH, IHl.
Qed.

Lemma Map_has_some_key (m : Map) (k : value) : Map_has m k = true → k ∈ Map_keys m.
Proof.
  unfold Map_keys. induction m as [|[k' v] m IHm]; simpl; [done|].
  intros [H|H]%orb_true_iff; apply elem_of_cons.
  - left. by apply same_value_eq.
  - right. by apply IHm.
Qed.

Lemma getCustomMessageType_pure (v : value) (s s' : state) (o : outcome value) :
  MessageRegister.getCustomMessageType v s = (s', o) → s' = s.
Proof.
  intros H. pose proof (keeps_getCustomMessageType (same id) v s) as Hk.
  rewrite H in Hk. exact Hk.
Qed.

Lemma getCustomMessageType_string (v t : value) (s s' : state) :
  MessageRegister.getCustomMessageType v s = (s', Return t) → is_HTMLElement t = false.
Proof.
  unfold MessageRegister.getCustomMessageType, mbind, JS_bind.
  destruct v; simpl; try done.
  destruct (tokens_contains _ _); simpl; [|done]. by intros [= _ <-].
Qed.

(** What a resolution that succeeds tells. *)
Lemma getElementFromMessageType_Return (x t elMessage : value) (c : bool) (s s' : state) :
  MessageRegister.getElementFromMessageType x s = (s', Return (t, elMessage, c)) →
  s' = s ∧ is_HTMLElement t = false
  ∧ if c then elMessage = x ∧ MessageRegister.getCustomMessageType x s = (s, Return t)
    else t = x ∧ Map_has (elementByType s) x = true
         ∧ elMessage = Map_get (elementByType s) x.
Proof.
  unfold MessageRegister.getElementFromMessageType.
  destruct (is_HTMLElement x) eqn:Hx.
  - intros (t' & s1 & Hc & H)%bind_Return. injection H as -> -> -> <-.
    pose proof (getCustomMessageType_pure _ _ _ _ Hc) as ->.
    pose proof (getCustomMessageType_string _ _ _ _ Hc). done.
  - unfold mbind, JS_bind. simpl.
    destruct (Map_has (elementByType s) x) eqn:Hhas;
      [|by destruct x as [| |[]| | | | | |]].
    by intros [= -> -> -> <-].
Qed.

(** [find] passes over keys that are bound to elements which are not equal
    nodes of [e]. *)
Lemma find_skips (s : state) (e : nat) (skipped rest : list value) :
  let m := elementByType s in
  (∀ k, k ∈ skipped →
     Map_has m k = true
     ∧ ∃ r, Map_get m k = VElem r
            ∧ equal_nodes (size (document s)) (document s) r e = false) →
  Iterator_find (λ messagetype,
      if negb (Map_has m messagetype) then mret false
      else isEqualNode (Map_get m messagetype) (VElem e)) (skipped ++ rest) s
  = Iterator_find (λ messagetype,
      if negb (Map_has m messagetype) then mret false
      else isEqualNode (Map_get m messagetype) (VElem e)) rest s.
Proof.
  intros m. induction skipped as [|k skipped IH]; intros Hkeys; simpl; [done|].
  destruct (Hkeys k) as (Hhas & r & Hr & Hne); [apply elem_of_cons; by left|].
  unfold mbind at 1, JS_bind at 1. rewrite Hhas. simpl. rewrite Hr. simpl. rewrite Hne.
  apply IH. intros k' Hk'. apply Hkeys. apply elem_of_cons. by right.
Qed.

Lemma keys_before_split (t : value) (keys : list value) :
  t ∈ keys → ∃ rest, keys = keys_before t keys ++ t :: rest.
Proof.
  induction keys as [|k keys IH]; simpl; [by intros ?%elem_of_nil|].
  intros Hin. destruct (same_value k t) eqn:Hk.
  - apply same_value_eq in Hk as ->. by exists keys.
  - apply elem_of_cons in Hin as [->|Hin]; [by rewrite same_value_refl in Hk|].
    destruct (IH Hin) as [rest Hrest]. exists rest. simpl. by rewrite <- Hrest.
Qed.

Lemma keys_before_all (t : value) (keys : list value) :
  t ∉ keys → keys_before t keys = keys.
Proof.
  induction keys as [|k keys IH]; simpl; [done|].
  intros Hnot. destruct (same_value k t) eqn:Hk.
  - apply same_value_eq in Hk as ->. exfalso. apply Hnot. apply elem_of_cons. by left.
  - rewrite IH; [done|]. intros Hin. apply Hnot. apply elem_of_cons. by right.
Qed.

Lemma keys_before_subseteq (t : value) (keys : list value) (k : value) :
  k ∈ keys_before t keys → k ∈ keys.
Proof.
  induction keys as [|k' keys IH]; simpl; [done|].
  destruct (same_value k' t); [by intros ?%elem_of_nil|].
  intros [->|Hin]%elem_of_cons; apply elem_of_cons; [by left|right; by apply IH].
Qed.

(** C8 fails as it is stated.  The Warn level and the Info level are bound to two
    different elements, 5 and 6, that are equal nodes (same id, classes,
    attributes and content).  Each level resolves to its one element, but
    element 6 of the Info level resolves back to the Warn level, the first
    key whose element [isEqualNode] accepts. *)
Lemma twin_elements_resolve_to_first :
  MessageRegister.getElementFromMessageType (member MESSAGE_LEVEL "WARN") twins
    = (twins, Return (VSym (LevelSymbol WARN), VElem 5, false))
  ∧ MessageRegister.getElementFromMessageType (member MESSAGE_LEVEL "INFO") twins
    = (twins, Return (VSym (LevelSymbol INFO), VElem 6, false))
  ∧ MessageRegister.getMessageTypeFromElement (VElem 6) twins
    = (twins, Return (VSym (LevelSymbol WARN))).
Proof. repeat split; vm_compute; reflexivity. Qed.

(** The same happens with two levels bound to one and the same element. *)
Lemma shared_element_resolves_to_first :
  MessageRegister.getElementFromMessageType (member MESSAGE_LEVEL "WARN") shared
    = (shared, Return (VSym (LevelSymbol WARN), VElem 0, false))
  ∧ MessageRegister.getMessageTypeFromElement (VElem 0) shared
    = (shared, Return (VSym (LevelSymbol ERROR))).
Proof. split; vm_compute; reflexivity. Qed.

(** A type registered before [t] with [null] for its element (no element
    of that id was found in the page): the search calls [isEqualNode] on
    [null] and throws before it comes to [t]. *)
Lemma null_entry_breaks_lookup :
  let s := {| elementByType := [(VSym (LevelSymbol INFO), VNull);
                                (VSym (LevelSymbol WARN), VElem 5)];
              styleClassByType := []; hooks := []; hooks_props := [];
              Map_prototype_actionButton := None;
              document := page; i18n_getMessage := λ _, ""; console := []; called := [] |} in
  MessageRegister.getElementFromMessageType (member MESSAGE_LEVEL "WARN") s
    = (s, Return (VSym (LevelSymbol WARN), VElem 5, false))
  ∧ MessageRegister.getMessageTypeFromElement (VElem 5) s
    = (s, Throw (TypeError "can't access property of undefined or null")).
Proof. split; vm_compute; reflexivity. Qed.

(** The type [undefined]: the search finds the key, which is what [find]
    also gives when it finds nothing, and the custom lookup answers. *)
Lemma undefined_type_resolves_to_id :
  let s := {| elementByType := [(VUndefined, VElem 5)];
              styleClassByType := []; hooks := []; hooks_props := [];
              Map_prototype_actionButton := None;
              document := page; i18n_getMessage := λ _, ""; console := []; called := [] |} in
  MessageRegister.getElementFromMessageType VUndefined s
    = (s, Return (VUndefined, VElem 5, false))
  ∧ MessageRegister.getMessageTypeFromElement (VElem 5) s
    = (s, Return (VStr "messageWarning")).
Proof. split; vm_compute; reflexivity. Qed.

(** C8, amended.  If [x] (a registered type, or a custom message element)
    resolves to the type [t], which is not [undefined], and to the element
    [e], and every type that was registered before [t] (for a custom
    message: every registered type) is bound to an element that is not an
    equal node of [e], then [e] resolves back to [t].  Nothing is asked of
    the types registered after [t]. *)
Theorem element_resolves_back (s : state) (x t : value) (e : nat) (c : bool) :
  MessageRegister.getElementFromMessageType x s = (s, Return (t, VElem e, c)) →
  t ≠ VUndefined →
  (∀ k, k ∈ (if c then Map_keys (elementByType s)
             else keys_before t (Map_keys (elementByType s))) →
     ∃ r, Map_get (elementByType s) k = VElem r
          ∧ equal_nodes (size (document s)) (document s) r e = false) →
  MessageRegister.getMessageTypeFromElement (VElem e) s = (s, Return t).
Proof.
  intros Hres Hdef Hkeys.
  apply getElementFromMessageType_Return in Hres as (_ & Hnot & Hc).
  assert (∃ found,
            Iterator_find (λ messagetype,
                if negb (Map_has (elementByType s) messagetype) then mret false
                else isEqualNode (Map_get (elementByType s) messagetype) (VElem e))
              (Map_keys (elementByType s)) s = (s, Return found)
            ∧ (found = t ∨ (found = VUndefined ∧ c = true))) as (found & Hfind & Hfound).
  { destruct c.
    - exists VUndefined. split; [|by right].
      pose proof (find_skips s e (Map_keys (elementByType s)) []) as Hskip.
      rewrite app_nil_r in Hskip. rewrite Hskip; [done|].
      intros k Hk. split; [by apply Map_has_key|by apply Hkeys].
    - destruct Hc as (-> & Hhas & Hget). exists x. split; [|by left].
      destruct (keys_before_split x (Map_keys (elementByType s))) as [rest Hsplit];
        [by apply Map_has_some_key|].
      rewrite Hsplit at 1. rewrite find_skips.
      + simpl. unfold mbind, JS_bind. rewrite Hhas. simpl. rewrite <- Hget. simpl.
        by rewrite equal_nodes_refl.
      + intros k Hk. split; [|by apply Hkeys].
        apply Map_has_key. by apply (keys_before_subseteq x). }
  unfold MessageRegister.getMessageTypeFromElement.
  simpl. unfold mbind at 1, JS_bind at 1. simpl.
  erewrite bind_run by exact Hfind.
  destruct Hfound as [->|[-> ->]].
  - destruct t; done.
  - simpl. by destruct Hc as [[= ->] Hcustom].
Qed.

Lemma element_resolves_back_witness :
  MessageRegister.getMessageTypeFromElement (VElem 5) distinct
  = (distinct, Return (VSym (LevelSymbol WARN))).
Proof.
  apply (element_resolves_back distinct (member MESSAGE_LEVEL "WARN") _ 5 false).
  - vm_compute. reflexivity.
  - discriminate.
  - intros k [->|[]%elem_of_nil]%elem_of_cons.
    exists 0. split; vm_compute; reflexivity.
Defined.

(** The same for a custom message: element 5 is bound to no type; passed as
    it is, it resolves to its id, and back. *)
Lemma custom_element_resolves_back :
  MessageRegister.getElementFromMessageType (VElem 5) registered
    = (registered, Return (VStr "messageWarning", VElem 5, true))
  ∧ MessageRegister.getMessageTypeFromElement (VElem 5) registered
    = (registered, Return (VStr "messageWarning")).
Proof. split; vm_compute; reflexivity. Qed.

(** ** The claims about what [showMessage] presents *)

Lemma keeps_setup_custom_hooks (R : relation state) `{!PreOrder R} mt c :
  (∀ g s, R s (set_hooks_props g s)) →
  keeps R (MessageRegister.setup_custom_hooks mt c).
Proof.
  intros HR. unfold MessageRegister.setup_custom_hooks.
  destruct c; [|apply keeps_ret; done].
  apply keeps_bind; [done|apply keeps_gets; done|intros p].
  destruct (MessageRegister.member_is_undefined p); [|apply keeps_ret; done].
  apply keeps_modify. intros s. apply HR.
Qed.

Lemma getElementFromMessageType_console (x : value) g (s : state) :
  (MessageRegister.getElementFromMessageType x (set_console g s)).2
  = (MessageRegister.getElementFromMessageType x s).2.
Proof.
  unfold MessageRegister.getElementFromMessageType, MessageRegister.getCustomMessageType.
  destruct x as [| |[]| | | | | |]; simpl; unfold mbind, JS_bind; simpl;
    try (by destruct (Map_has (elementByType s) _)).
  by destruct (tokens_contains _ _).
Qed.

Lemma gets_Return {A} (f : state → A) (s s' : state) (a : A) :
  gets f s = (s', Return a) → s' = s ∧ a = f s.
Proof. by intros [= <- <-]. Qed.

(** A call of [showMessage] that returns has resolved its first argument to
    an element and has run lines 344-403 on that element, its dismiss icon,
    its action button and the link of the button, as they are found in the
    page at the start. *)
Lemma showMessage_front (args : list value) (s s' : state) :
  MessageRegister.showMessage args s = (s', Return tt) →
  ∃ mt el c s1,
    (MessageRegister.getElementFromMessageType (first args) s).2
      = Return (mt, VElem el, c)
    ∧ document s1 = document s
    ∧ MessageRegister.show_on mt el (dismiss_icon_of (document s) el)
        (action_button_of (document s) el) (action_link_of (document s) el)
        (shifted args) s1 = (s', Return tt).
Proof.
  unfold MessageRegister.showMessage.
  rewrite bool_decide_eq_false_2 by lia.
  intros ([] & s0 & Hlog & H)%bind_Return.
  apply bind_Return in H as ([[mt elM] c] & s0' & Hres & H).
  cbn beta iota zeta in H.
  apply bind_Return in H as ([] & s2 & Hsetup & H).
  apply bind_Return in H as (el & s3 & Hel & H).
  apply bind_Return in H as (icons & s4 & Hicons & H).
  apply bind_Return in H as (buttons & s5 & Hbuttons & H).
  apply bind_Return in H as (link & s6 & Hlink & H).
  apply bind_Return in H as ([] & s7 & Hdead & H).
  assert (∃ g, s0 = set_console g s) as [g ->].
  { destruct (is_HTMLElement (first args)); injection Hlog as <-; eauto. }
  pose proof (getElementFromMessageType_console (first args) g s) as Hsame.
  rewrite Hres in Hsame. simpl in Hsame.
  apply getElementFromMessageType_Return in Hres as (-> & Hmt & _).
  assert (document s2 = document s) as Hdoc2.
  { pose proof (keeps_setup_custom_hooks (same document) mt c (λ _ _, eq_refl)
      (set_console g s)) as Hk.
    rewrite Hsetup in Hk. exact Hk. }
  destruct elM; try done. injection Hel as <- <-.
  apply gets_Return in Hicons as [-> ->], Hbuttons as [-> ->].
  assert (s6 = s2 ∧ link = action_link_of (document s2) r) as [-> ->].
  { unfold action_link_of, action_button_of. destruct (head _); by injection Hlink. }
  rewrite Hmt in Hdead. injection Hdead as <-.
  exists mt, r, c, s2. split; [done|]. split; [done|].
  rewrite <- Hdoc2. exact H.
Qed.

Lemma runHook_observing {B} (proj : node → B) (r0 : nat) mt ht p :
  keeps (observing proj r0) (MessageRegister.runHook mt ht p).
Proof. apply runHook_keeps; [apply _|done]. Qed.

Lemma runHook_document mt ht p : keeps (same document) (MessageRegister.runHook mt ht p).
Proof. apply runHook_keeps; [apply _|done]. Qed.

#[global] Hint Resolve runHook_observing runHook_document : frames.

(** Lines 344-403 attach and detach no listener. *)
Lemma show_on_listeners mt el icon btn link args (r : nat) :
  keeps (observing listeners r) (MessageRegister.show_on mt el icon btn link args).
Proof. unfold MessageRegister.show_on. frame_all. Qed.

Lemma tokens_remove_spec (c x : string) (l : list string) :
  x ∈ tokens_remove c l ↔ x ≠ c ∧ x ∈ l.
Proof. unfold tokens_remove. by rewrite list_elem_of_filter. Qed.

Lemma tokens_add_spec (c : string) (l : list string) : c ∈ tokens_add c l.
Proof.
  unfold tokens_add. case_bool_decide; [done|]. apply elem_of_app. right.
  by apply list_elem_of_singleton.
Qed.

(** Lines 396-397 are the last writes to the page. *)
Lemma show_on_classList mt el icon btn link args (s s' : state) :
  MessageRegister.show_on mt el icon btn link args s = (s', Return tt) →
  ∃ l, classList (document s' !!! el) = tokens_remove "fade-hide" (tokens_remove "invisible" l).
Proof.
  unfold MessageRegister.show_on.
  intros ([[[main dis] ab] args'] & s1 & Hparse & H)%bind_Return.
  apply bind_Return in H as ([] & s2 & Htext & H).
  apply bind_Return in H as ([] & s3 & Hicon & H).
  apply bind_Return in H as ([] & s4 & Hbutton & H).
  apply bind_Return in H as ([] & s5 & Hrem1 & H).
  apply bind_Return in H as ([] & s6 & Hrem2 & H).
  pose proof (runHook_document mt (member MessageRegister.HOOK_TYPE "SHOW") NoParam s6) as Hdoc.
  rewrite H in Hdoc. unfold same in Hdoc. simpl in Hdoc. rewrite Hdoc.
  injection Hrem2 as <-. injection Hrem1 as <-. simpl.
  rewrite !lookup_total_insert_eq. simpl. eauto.
Qed.

(** C10.  A call of [showMessage] that returns has resolved an element, and
    afterwards that element has neither the class ["invisible"] nor the
    class ["fade-hide"], whatever its classes were; every element of the
    page has the listeners it had, so a ["transitionend"] listener that a
    dismiss click attached is still attached. *)
Theorem showMessage_makes_visible (s s' : state) (args : list value) :
  MessageRegister.showMessage args s = (s', Return tt) →
  ∃ mt el c,
    (MessageRegister.getElementFromMessageType (first args) s).2
      = Return (mt, VElem el, c)
    ∧ ("invisible" ∉ classList (document s' !!! el))
    ∧ ("fade-hide" ∉ classList (document s' !!! el))
    ∧ ∀ r, listeners (document s' !!! r) = listeners (document s !!! r).
Proof.
  intros (mt & el & c & s1 & Hres & Hdoc & Hshow)%showMessage_front.
  exists mt, el, c. split; [done|].
  destruct (show_on_classList _ _ _ _ _ _ _ _ Hshow) as [l ->].
  rewrite !tokens_remove_spec. split; [by intros (_ & [] & _)|].
  split; [by intros ([] & _)|].
  intros r.
  pose proof (show_on_listeners mt el (dismiss_icon_of (document s) el)
    (action_button_of (document s) el) (action_link_of (document s) el)
    (shifted args) r s1) as Hk.
  rewrite Hshow in Hk. unfold observing, same in Hk. simpl in Hk.
  by rewrite Hk, Hdoc.
Qed.

(** The Error message is shown again while its fade-out is in progress. *)
Lemma showMessage_makes_visible_witness :
  classList (document clicked !!! 0) = ["message-box"; "error"; "fade-hide"]
  ∧ listeners (document clicked !!! 0) = [("transitionend", dismissMessage_listener)]
  ∧ ∃ mt el c,
    (MessageRegister.getElementFromMessageType
       (first [member MESSAGE_LEVEL "ERROR"; VStr "again"]) clicked).2
      = Return (mt, VElem el, c)
    ∧ ("invisible" ∉ classList
        (document (MessageRegister.showMessage [member MESSAGE_LEVEL "ERROR"; VStr "again"]
                     clicked).1 !!! el))
    ∧ ("fade-hide" ∉ classList
        (document (MessageRegister.showMessage [member MESSAGE_LEVEL "ERROR"; VStr "again"]
                     clicked).1 !!! el))
    ∧ ∀ r, listeners
        (document (MessageRegister.showMessage [member MESSAGE_LEVEL "ERROR"; VStr "again"]
                     clicked).1 !!! r)
      = listeners (document clicked !!! r).
Proof.
  split; [vm_compute; reflexivity|]. split; [vm_compute; reflexivity|].
  apply (showMessage_makes_visible clicked _ [member MESSAGE_LEVEL "ERROR"; VStr "again"]).
  vm_compute. reflexivity.
Defined.








(** * Further properties of the two modules *)

#[global] Instance frozen_preorder : PreOrder frozen.
Proof.
  split; [done|]. unfold frozen. intros x y z (H1 & H2 & H3) (H4 & H5 & H6).
  repeat split; [congruence..|]. intros k. by rewrite H6.
Qed.

#[global] Instance mute_preorder : PreOrder mute.
Proof.
  split; [done|]. unfold mute. intros x y z H1 H2 Hb.
  destruct (H1 Hb) as [Hb1 Hc1]. destruct (H2 Hb1) as [Hb2 Hc2].
  split; [done|congruence].
Qed.

Ltac frame_leaf ::=
  unfold observing, same, quiet, frozen, mute; simpl;
  try done;
  try (apply update_node_other; first [by left | by right | right; by intros []]).

Lemma quiet_mute (s s' : state) : quiet s s' → mute s s'.
Proof. intros [Hh Hc] Hb. rewrite Hh. split; [done|by apply Hc]. Qed.

Lemma keeps_weaken {A} (R R' : relation state) (m : JS A) :
  (∀ s s', R s s' → R' s s') → keeps R m → keeps R' m.
Proof. intros H Hk s. apply H, Hk. Qed.

(** ** [runHook] and [hideMessage] *)

Lemma runHook_frozen mt ht p : keeps frozen (MessageRegister.runHook mt ht p).
Proof. apply runHook_keeps; [apply _|done]. Qed.

#[global] Hint Resolve runHook_frozen : frames.

(** Without a bundle for the type, [runHook] throws where it reads the
    property of [hooks.get(messagetype)]. *)
Lemma runHook_without_bundle (mt ht : value) (p : hook_param) (s : state) :
  Map_get (hooks s) mt = VUndefined →
  MessageRegister.runHook mt ht p s
  = (s, Throw (TypeError "can't access property of undefined or null")).
Proof.
  intros Hget. unfold MessageRegister.runHook, MessageRegister.stack_limit.
  simpl. unfold mbind, JS_bind. simpl.
  destruct (same_value ht MessageRegister.GLOBAL_HOOK_ID); simpl; by rewrite Hget.
Qed.

Ltac hideMessage_at_frame :=
  let depth := fresh "depth" in
  let IH := fresh "IH" in
  let mt := fresh "mt" in
  intros depth; induction depth as [|depth IH]; intros mt; simpl;
  [ apply keeps_throw; apply _
  | destruct (is_null mt || is_undefined mt);
    [ apply keeps_bind; [apply _|apply keeps_gets; apply _|intros ?];
      apply keeps_forEach; [apply _|intros ?; apply IH]
    | frame_all ] ].

Lemma hideMessage_at_quiet : ∀ depth mt, keeps quiet (MessageRegister.hideMessage_at depth mt).
Proof. hideMessage_at_frame. Qed.

Lemma hideMessage_at_frozen : ∀ depth mt, keeps frozen (MessageRegister.hideMessage_at depth mt).
Proof. hideMessage_at_frame. Qed.

Lemma hideMessage_at_observing {B} (proj : node → B) (r0 : nat) :
  ignores_classList proj →
  ∀ depth mt, keeps (observing proj r0) (MessageRegister.hideMessage_at depth mt).
Proof.
  intros Hcl.
  assert (∀ r c, keeps (observing proj r0) (classList_add r c)) as Hadd
    by (intros; apply observe_classList_add; by right).
  intros depth; induction depth as [|depth IH]; intros mt; simpl;
    [apply keeps_throw; apply _|].
  destruct (is_null mt || is_undefined mt).
  - apply keeps_bind; [apply _|apply keeps_gets; apply _|intros ?].
    apply keeps_forEach; [apply _|intros ?; apply IH].
  - apply keeps_bind; [apply _|apply keeps_getElementFromMessageType; apply _|].
    intros [[t elM] c].
    apply keeps_bind; [apply _|apply keeps_element_of; apply _|intros el].
    apply keeps_bind; [apply _|apply keeps_getElementsByClassName; apply _|intros icons].
    apply keeps_bind; [apply _|apply Hadd|intros _].
    apply keeps_bind; [apply _| |intros _].
    { destruct (head icons); [apply Hadd|apply keeps_ret; apply _]. }
    apply keeps_bind; [apply _| |intros _].
    { unfold Logger.logInfo. apply keeps_modify. done. }
    apply runHook_observing.
Qed.

Lemma hideMessage_quiet mt : keeps quiet (MessageRegister.hideMessage mt).
Proof. apply hideMessage_at_quiet. Qed.
Lemma hideMessage_frozen mt : keeps frozen (MessageRegister.hideMessage mt).
Proof. apply hideMessage_at_frozen. Qed.

#[global] Hint Resolve hideMessage_quiet hideMessage_frozen : frames.

Lemma getElementFromMessageType_run (x t elM : value) (c : bool) (s : state) :
  (MessageRegister.getElementFromMessageType x s).2 = Return (t, elM, c) →
  MessageRegister.getElementFromMessageType x s = (s, Return (t, elM, c)).
Proof.
  intros H.
  pose proof (keeps_getElementFromMessageType (same id) x s) as Hp.
  destruct (MessageRegister.getElementFromMessageType x s) as [s0 o].
  simpl in H, Hp. unfold same in Hp. simpl in Hp. by subst.
Qed.

(** What [hideMessage] does with a type that resolves to an element: the
    page becomes [hidden el], the console gets an entry, and [runHook] is
    called. *)
Lemma hideMessage_at_run (depth : nat) (mt t : value) (el : nat) (c : bool) (s : state) :
  is_null mt || is_undefined mt = false →
  (MessageRegister.getElementFromMessageType mt s).2 = Return (t, VElem el, c) →
  ∃ s1, document s1 = hidden el (document s) ∧ hooks s1 = hooks s
    ∧ MessageRegister.hideMessage_at (S depth) mt s
      = MessageRegister.runHook mt (member MessageRegister.HOOK_TYPE "HIDE") NoParam s1.
Proof.
  intros Hnull Hres%getElementFromMessageType_run. simpl.
  rewrite Hnull. rewrite (bind_run _ _ _ _ _ Hres). cbn beta iota zeta.
  unfold mbind, JS_bind. simpl. unfold hidden, dismiss_icon_of.
  destruct (head (elementsByClassName (document s) el "icon-dismiss")) as [icon|];
    simpl; eexists; (split; [|split; [|reflexivity]]); done.
Qed.

Lemma hideMessage_run (mt t : value) (el : nat) (c : bool) (s : state) :
  is_null mt || is_undefined mt = false →
  (MessageRegister.getElementFromMessageType mt s).2 = Return (t, VElem el, c) →
  ∃ s1, document s1 = hidden el (document s) ∧ hooks s1 = hooks s
    ∧ MessageRegister.hideMessage mt s
      = MessageRegister.runHook mt (member MessageRegister.HOOK_TYPE "HIDE") NoParam s1.
Proof. apply hideMessage_at_run. Qed.

Lemma hidden_spec (el : nat) (d : gmap nat node) :
  "invisible" ∈ classList (hidden el d !!! el)
  ∧ (∀ icon, dismiss_icon_of d el = Some icon → "invisible" ∈ classList (hidden el d !!! icon))
  ∧ (∀ r, r ≠ el → dismiss_icon_of d el ≠ Some r → hidden el d !!! r = d !!! r)
  ∧ (∀ r c, c ∈ classList (d !!! r) → c ∈ classList (hidden el d !!! r)).
Proof.
  assert (∀ c l, c ∈ l → c ∈ tokens_add "invisible" l) as Hmono.
  { intros c l Hc. unfold tokens_add. case_bool_decide; [done|].
    apply elem_of_app. by left. }
  unfold hidden. destruct (dismiss_icon_of d el) as [icon|]; repeat split.
  - destruct (decide (icon = el)) as [->|Hne].
    + rewrite !lookup_total_insert_eq. simpl. apply tokens_add_spec.
    + rewrite lookup_total_insert_ne, lookup_total_insert_eq by done. apply tokens_add_spec.
  - intros ? [= <-]. rewrite lookup_total_insert_eq. simpl. apply tokens_add_spec.
  - intros r Hel Hicon. rewrite !lookup_total_insert_ne; [done|done|congruence].
  - intros r c Hc. destruct (decide (icon = r)) as [->|Hne1].
    + rewrite lookup_total_insert_eq. simpl. apply Hmono.
      destruct (decide (el = r)) as [->|Hne2].
      * rewrite lookup_total_insert_eq. simpl. by apply Hmono.
      * by rewrite lookup_total_insert_ne.
    + rewrite lookup_total_insert_ne by done.
      destruct (decide (el = r)) as [->|Hne2].
      * rewrite lookup_total_insert_eq. simpl. by apply Hmono.
      * by rewrite lookup_total_insert_ne.
  - rewrite lookup_total_insert_eq. simpl. apply tokens_add_spec.
  - done.
  - intros r Hel _. by rewrite lookup_total_insert_ne.
  - intros r c Hc. destruct (decide (el = r)) as [->|Hne2].
    + rewrite lookup_total_insert_eq. simpl. by apply Hmono.
    + by rewrite lookup_total_insert_ne.
Qed.

(** X1.  [hideMessage] with a type (not [null] or [undefined]) that
    resolves to an element: whether the hook dispatch at its end returns or
    throws, afterwards the element and its dismiss icon have the class
    ["invisible"], every other element is exactly as it was, and no element
    has lost a class. *)
Theorem hideMessage_hides (s : state) (mt t : value) (el : nat) (c : bool) :
  is_null mt || is_undefined mt = false →
  (MessageRegister.getElementFromMessageType mt s).2 = Return (t, VElem el, c) →
  let d' := document (MessageRegister.hideMessage mt s).1 in
  "invisible" ∈ classList (d' !!! el)
  ∧ (∀ icon, dismiss_icon_of (document s) el = Some icon → "invisible" ∈ classList (d' !!! icon))
  ∧ (∀ r, r ≠ el → dismiss_icon_of (document s) el ≠ Some r → d' !!! r = document s !!! r)
  ∧ (∀ r c, c ∈ classList (document s !!! r) → c ∈ classList (d' !!! r)).
Proof.
  intros Hnull Hres.
  destruct (hideMessage_run mt t el c s Hnull Hres) as (s1 & Hdoc & _ & ->).
  pose proof (runHook_document mt (member MessageRegister.HOOK_TYPE "HIDE") NoParam s1) as Hk.
  unfold same in Hk. cbv zeta. rewrite Hk, Hdoc. apply hidden_spec.
Qed.

(** The Warn level of [warned] has no bundle: [hideMessage] hides its
    element and throws. *)
Lemma hideMessage_hides_witness :
  classList (document warned !!! 5) = ["message-box"; "warning"]
  ∧ (MessageRegister.hideMessage (member MESSAGE_LEVEL "WARN") warned).2
    = Throw (TypeError "can't access property of undefined or null")
  ∧ let d' := document (MessageRegister.hideMessage (member MESSAGE_LEVEL "WARN") warned).1 in
    "invisible" ∈ classList (d' !!! 5)
    ∧ (∀ icon, dismiss_icon_of (document warned) 5 = Some icon →
         "invisible" ∈ classList (d' !!! icon))
    ∧ (∀ r, r ≠ 5 → dismiss_icon_of (document warned) 5 ≠ Some r →
         d' !!! r = document warned !!! r)
    ∧ (∀ r c, c ∈ classList (document warned !!! r) → c ∈ classList (d' !!! r)).
Proof.
  split; [vm_compute; reflexivity|]. split; [vm_compute; reflexivity|].
  apply (hideMessage_hides warned (member MESSAGE_LEVEL "WARN") (VSym (LevelSymbol WARN)) 5 false).
  - reflexivity.
  - vm_compute. reflexivity.
Defined.

(** [hideMessage] with an element never returns when [hooks] has no entry
    for the element itself. *)
Lemma hideMessage_at_element_throws (depth : nat) (r : nat) (s : state) :
  Map_get (hooks s) (VElem r) = VUndefined →
  ∃ e, (MessageRegister.hideMessage_at depth (VElem r) s).2 = Throw e.
Proof.
  intros Hget. destruct depth as [|depth]; [by eexists|].
  destruct (MessageRegister.getElementFromMessageType (VElem r) s)
    as [s0 [[[t elM] c]|e]] eqn:E.
  - pose proof E as (-> & Hnot & Hc)%getElementFromMessageType_Return.
    destruct c; [|by destruct Hc as [-> _]]. destruct Hc as [-> _].
    destruct (hideMessage_at_run depth (VElem r) t r true s eq_refl) as (s1 & _ & Hh & ->).
    { by rewrite E. }
    rewrite runHook_without_bundle by (by rewrite Hh). by eexists.
  - simpl. rewrite (bind_throw _ _ _ _ _ E). by eexists.
Qed.



(** X3.  A type registered with [null] or [undefined] for its element (no
    such element was found in the page) as first entry: [hideMessage(null)]
    calls itself with that value, again and again; at every depth of the
    stack the call ends in the [RangeError], and nothing is hidden. *)
Theorem hide_all_recurses_on_missing_element (s : state) (k v : value) (rest : Map)
    (depth : nat) (mt : value) :
  elementByType s = (k, v) :: rest →
  is_null v || is_undefined v = true →
  is_null mt || is_undefined mt = true →
  MessageRegister.hideMessage_at depth mt s = (s, Throw (RangeError "too much recursion")).
Proof.
  intros Hmap Hv. revert mt. induction depth as [|depth IH]; intros mt Hmt; simpl; [done|].
  rewrite Hmt. unfold mbind at 1, JS_bind at 1. cbn [gets]. rewrite Hmap.
  cbn [Map_values fmap list_fmap snd forEach].
  by rewrite (bind_throw _ _ _ _ _ (IH v Hv)).
Qed.

Lemma hide_all_recurses_on_missing_element_witness :
  let s := {| elementByType := [(VSym (LevelSymbol INFO), getElementById page "messageInfo");
                                (VSym (LevelSymbol ERROR), VElem 0)];
              styleClassByType := []; hooks := hooks registered; hooks_props := [];
              Map_prototype_actionButton := None;
              document := page; i18n_getMessage := λ _, ""; console := []; called := [] |} in
  MessageRegister.hideMessage VNull s = (s, Throw (RangeError "too much recursion")).
Proof.
  apply (hide_all_recurses_on_missing_element _ (VSym (LevelSymbol INFO)) VNull
           [(VSym (LevelSymbol ERROR), VElem 0)] MessageRegister.stack_limit VNull);
    reflexivity.
Defined.

(** ** [dismissMessage] *)

Lemma getMessageTypeFromElement_run (v mt : value) (s : state) :
  (MessageRegister.getMessageTypeFromElement v s).2 = Return mt →
  MessageRegister.getMessageTypeFromElement v s = (s, Return mt).
Proof.
  intros H.
  pose proof (keeps_getMessageTypeFromElement (same id) v s) as Hp.
  destruct (MessageRegister.getMessageTypeFromElement v s) as [s0 o].
  simpl in H, Hp. unfold same in Hp. simpl in Hp. by subst.
Qed.

(** X4.  A click on a dismiss icon whose parent is a message box, and for
    which the type of the box is found: whether the hook dispatch returns or
    throws, afterwards the box has the class ["fade-hide"] and the listener
    [dismissMessage] for ["transitionend"], and every other element is
    exactly as it was. *)
Theorem click_starts_fade (s : state) (ev : event) (p : nat) (mt : value) :
  ev_type ev = "click" →
  parentNode (document s !!! ev_target ev) = Some p →
  tokens_contains "message-box" (classList (document s !!! p)) = true →
  (MessageRegister.getMessageTypeFromElement (VElem p) s).2 = Return mt →
  let d' := document (MessageRegister.dismissMessage ev s).1 in
  "fade-hide" ∈ classList (d' !!! p)
  ∧ ("transitionend", dismissMessage_listener) ∈ listeners (d' !!! p)
  ∧ ∀ r, r ≠ p → d' !!! r = document s !!! r.
Proof.
  intros Hclick Hparent Hbox Hmt%getMessageTypeFromElement_run.
  set (d1 := <[p := with_classList (tokens_add "fade-hide") (document s !!! p)]> (document s)).
  assert (document (MessageRegister.dismissMessage ev s).1
          = <[p := with_listeners
                     (λ l, if bool_decide (("transitionend", dismissMessage_listener) ∈ l)
                           then l else l ++ [("transitionend", dismissMessage_listener)])
                     (d1 !!! p)]> d1) as Hdoc.
  { unfold MessageRegister.dismissMessage.
    rewrite bool_decide_eq_true_2 by done.
    unfold mbind at 1, JS_bind at 1. cbn [gets]. unfold parent_value. rewrite Hparent.
    rewrite (bind_run _ _ _ _ _ Hmt).
    unfold mbind at 1, JS_bind at 1. cbn [element_of mret JS_ret].
    unfold mbind at 1, JS_bind at 1. unfold classList_contains at 1. cbn [gets].
    rewrite Hbox. cbn [negb].
    unfold mbind at 1, JS_bind at 1. cbn [classList_add update_node modify].
    unfold mbind at 1, JS_bind at 1. cbn [addEventListener update_node modify].
    match goal with |- context [(?m ≫= ?f) ?s1] =>
      pose proof (keeps_bind (same document) m f
                    (runHook_document _ _ _)
                    (λ _, keeps_modify (same document) _ (λ _, eq_refl)) s1) as Hk
    end.
    unfold same in Hk. rewrite Hk. reflexivity. }
  cbv zeta. rewrite Hdoc.
  rewrite !lookup_total_insert_eq. unfold d1. rewrite !lookup_total_insert_eq. simpl.
  split; [apply tokens_add_spec|]. split.
  - case_bool_decide; [done|]. apply elem_of_app. right. by apply list_elem_of_singleton.
  - intros r Hr. by rewrite !lookup_total_insert_ne.
Qed.

(** A click on the dismiss icon of a custom message box on the registry as
    loaded: the hook dispatch throws, the fade-out has started. *)
Lemma click_starts_fade_witness :
  (MessageRegister.dismissMessage (Event "click" 1 1) loaded).2
    = Throw (TypeError "can't access property of undefined or null")
  ∧ let d' := document (MessageRegister.dismissMessage (Event "click" 1 1) loaded).1 in
    "fade-hide" ∈ classList (d' !!! 0)
    ∧ ("transitionend", dismissMessage_listener) ∈ listeners (d' !!! 0)
    ∧ ∀ r, r ≠ 0 → d' !!! r = document loaded !!! r.
Proof.
  split; [vm_compute; reflexivity|].
  apply (click_starts_fade loaded (Event "click" 1 1) 0 (VStr "messageError"));
    vm_compute; reflexivity.
Defined.

(** X5.  A click on an element whose parent is no message box (or that has
    no parent) changes nothing at all: the handler throws in the lookup of
    the type, or returns at the guard of line 192. *)
Theorem click_outside_message_box (s : state) (ev : event) :
  ev_type ev = "click" →
  match parentNode (document s !!! ev_target ev) with
  | Some p => tokens_contains "message-box" (classList (document s !!! p)) = false
  | None => True
  end →
  (MessageRegister.dismissMessage ev s).1 = s.
Proof.
  intros Hclick Hparent. unfold MessageRegister.dismissMessage.
  rewrite bool_decide_eq_true_2 by done.
  unfold mbind at 1, JS_bind at 1. cbn [gets]. unfold parent_value.
  match goal with |- context [MessageRegister.getMessageTypeFromElement ?v] =>
    pose proof (keeps_getMessageTypeFromElement (same id) v s) as Hp;
    destruct (MessageRegister.getMessageTypeFromElement v s) as [s0 [mt|e]] eqn:E
  end; unfold same in Hp; simpl in Hp; subst s0.
  - rewrite (bind_run _ _ _ _ _ E).
    destruct (parentNode (document s !!! ev_target ev)) as [p|]; [|done].
    unfold mbind, JS_bind. simpl. unfold classList_contains, gets. by rewrite Hparent.
  - by rewrite (bind_throw _ _ _ _ _ E).
Qed.

Lemma click_outside_message_box_witness :
  (MessageRegister.dismissMessage (Event "click" 4 4) hooked).1 = hooked.
Proof.
  apply (click_outside_message_box hooked (Event "click" 4 4)); vm_compute; reflexivity.
Defined.

(** X6.  The handler of the completion event never detaches itself: when
    [hooks] has no entry for the element of the event itself, a
    ["transitionend"] event makes [dismissMessage] throw (in the lookup of
    the type, or in [hideMessage], which is given the element), and every
    element has the listeners it had. *)
Theorem transitionend_keeps_listener (s : state) (ev : event) :
  ev_type ev = "transitionend" →
  Map_get (hooks s) (VElem (ev_target ev)) = VUndefined →
  (∃ e, (MessageRegister.dismissMessage ev s).2 = Throw e)
  ∧ ∀ r, listeners (document (MessageRegister.dismissMessage ev s).1 !!! r)
         = listeners (document s !!! r).
Proof.
  intros Hend Hget. unfold MessageRegister.dismissMessage. rewrite Hend.
  rewrite bool_decide_eq_false_2 by done. rewrite bool_decide_eq_true_2 by done.
  match goal with |- context [MessageRegister.getMessageTypeFromElement ?v] =>
    pose proof (keeps_getMessageTypeFromElement (same id) v s) as Hp;
    destruct (MessageRegister.getMessageTypeFromElement v s) as [s0 [mt|e]] eqn:E
  end; unfold same in Hp; simpl in Hp; subst s0.
  - rewrite (bind_run _ _ _ _ _ E).
    destruct (hideMessage_at_element_throws MessageRegister.stack_limit (ev_target ev) s Hget)
      as [e He].
    pose proof (hideMessage_at_observing listeners) as Hl.
    destruct (MessageRegister.hideMessage_at MessageRegister.stack_limit
                (VElem (ev_target ev)) s) as [s1 o] eqn:Eh.
    simpl in He. subst o. unfold MessageRegister.hideMessage.
    rewrite (bind_throw _ _ _ _ _ Eh). split; [by eexists|]. intros r.
    specialize (Hl r (λ _ _, eq_refl) MessageRegister.stack_limit (VElem (ev_target ev)) s).
    by rewrite Eh in Hl.
  - rewrite (bind_throw _ _ _ _ _ E). split; [by eexists|done].
Qed.

Lemma transitionend_keeps_listener_witness :
  listeners (document clicked !!! 0) = [("transitionend", dismissMessage_listener)]
  ∧ (∃ e, (MessageRegister.dismissMessage (Event "transitionend" 0 0) clicked).2 = Throw e)
  ∧ ∀ r, listeners (document (MessageRegister.dismissMessage (Event "transitionend" 0 0)
                                clicked).1 !!! r)
         = listeners (document clicked !!! r).
Proof.
  split; [vm_compute; reflexivity|].
  apply (transitionend_keeps_listener clicked (Event "transitionend" 0 0));
    vm_compute; reflexivity.
Defined.

(** ** What no call changes *)

Lemma showMessage_frozen args : keeps frozen (MessageRegister.showMessage args).
Proof. unfold MessageRegister.showMessage. frame_all. Qed.

Lemma dismissMessage_quiet ev : keeps quiet (MessageRegister.dismissMessage ev).
Proof. unfold MessageRegister.dismissMessage. frame_all. Qed.
Lemma dismissMessage_frozen ev : keeps frozen (MessageRegister.dismissMessage ev).
Proof. unfold MessageRegister.dismissMessage. frame_all. Qed.

Lemma actionButtonClicked_quiet ev : keeps quiet (MessageRegister.actionButtonClicked ev).
Proof. unfold MessageRegister.actionButtonClicked. frame_all. Qed.
Lemma actionButtonClicked_frozen ev : keeps frozen (MessageRegister.actionButtonClicked ev).
Proof. unfold MessageRegister.actionButtonClicked. frame_all. Qed.

Lemma cloneMessage_quiet mt newId : keeps quiet (MessageRegister.cloneMessage mt newId).
Proof. unfold MessageRegister.cloneMessage. frame_all. Qed.
Lemma cloneMessage_frozen mt newId : keeps frozen (MessageRegister.cloneMessage mt newId).
Proof. unfold MessageRegister.cloneMessage. frame_all. Qed.

Lemma registerMessageType_quiet mt el css :
  keeps quiet (MessageRegister.registerMessageType mt el css).
Proof. intros s. by rewrite registerMessageType_throws. Qed.
Lemma registerMessageType_frozen mt el css :
  keeps frozen (MessageRegister.registerMessageType mt el css).
Proof. intros s. by rewrite registerMessageType_throws. Qed.

Lemma setHook_frozen mt ht f : keeps frozen (MessageRegister.setHook mt ht f).
Proof.
  intros s. unfold MessageRegister.setHook, mbind, JS_bind, frozen. simpl.
  destruct ht; simpl; repeat split; try done; intros k; apply Map_get_set_same.
Qed.

Lemma bundles_Map_set (h : Map) (k v : value) :
  bundles_of_template h → no_hooktype_property v → bundles_of_template (Map_set h k v).
Proof.
  unfold bundles_of_template. intros Hb Hv. induction h as [|[k0 v0] h IH]; simpl.
  - by repeat constructor.
  - apply Forall_cons in Hb as [H0 Hb]. destruct (same_value k k0).
    + by constructor.
    + constructor; [done|by apply IH].
Qed.

Lemma setHook_mute mt ht f : keeps mute (MessageRegister.setHook mt ht f).
Proof.
  intros s Hb. unfold MessageRegister.setHook, mbind, JS_bind. simpl.
  destruct ht; simpl; split; try done;
    apply bundles_Map_set; try done; by apply bundle_of_template.
Qed.

Lemma perform_frozen (c : api_call) : keeps frozen (perform c).
Proof.
  destruct c; simpl;
    unfold MessageHandler.showError, MessageHandler.showWarning, MessageHandler.showInfo,
      MessageHandler.showLoading, MessageHandler.showSuccess, MessageHandler.hideWarning,
      MessageHandler.hideInfo, MessageHandler.hideLoading, MessageHandler.hideSuccess,
      MessageHandler.setHook, MessageHandler.setDismissHooks;
    try apply showMessage_frozen; try apply hideMessage_frozen;
    try apply setHook_frozen; try apply registerMessageType_frozen.
  - apply keeps_bind; [apply _|apply cloneMessage_frozen|intros ?; apply keeps_ret; apply _].
  - apply keeps_throw; apply _.
  - apply keeps_bind; [apply _|apply setHook_frozen|intros ?; apply setHook_frozen].
  - apply keeps_bind; [apply _|apply setHook_frozen|intros ?; apply setHook_frozen].
  - intros s. by rewrite init_registers_nothing.
  - destruct f; [apply dismissMessage_frozen|apply actionButtonClicked_frozen].
Qed.

Lemma perform_mute (c : api_call) : keeps mute (perform c).
Proof.
  destruct c; simpl;
    unfold MessageHandler.showError, MessageHandler.showWarning, MessageHandler.showInfo,
      MessageHandler.showLoading, MessageHandler.showSuccess, MessageHandler.hideWarning,
      MessageHandler.hideInfo, MessageHandler.hideLoading, MessageHandler.hideSuccess,
      MessageHandler.setHook, MessageHandler.setDismissHooks;
    try (apply (keeps_weaken quiet mute _ quiet_mute); apply showMessage_quiet);
    try (apply (keeps_weaken quiet mute _ quiet_mute); apply hideMessage_quiet);
    try apply setHook_mute.
  - apply (keeps_weaken quiet mute _ quiet_mute).
    apply keeps_bind; [apply _|apply cloneMessage_quiet|intros ?; apply keeps_ret; apply _].
  - apply (keeps_weaken quiet mute _ quiet_mute), registerMessageType_quiet.
  - apply keeps_throw; apply _.
  - apply keeps_bind; [apply _|apply setHook_mute|intros ?; apply setHook_mute].
  - apply keeps_bind; [apply _|apply setHook_mute|intros ?; apply setHook_mute].
  - intros s. by rewrite init_registers_nothing.
  - apply (keeps_weaken quiet mute _ quiet_mute).
    destruct f; [apply dismissMessage_quiet|apply actionButtonClicked_quiet].
Qed.

Lemma run_keeps (R : relation state) `{!PreOrder R} :
  (∀ c, keeps R (perform c)) → ∀ calls s, R s (run calls s).
Proof.
  intros H calls. induction calls as [|c calls IH]; intros s; simpl; [done|].
  etrans; [apply (H c s)|apply IH].
Qed.

(** X7.  No call ever changes the registry: after any sequence of calls of
    the exported functions of both modules and of the two listeners,
    [elementByType] and [styleClassByType] are as they were and [hooks.get]
    gives for every type what it gave (nothing is registered, nothing is
    removed, no hook is stored). *)
Theorem registry_never_changes (calls : list api_call) (s : state) :
  elementByType (run calls s) = elementByType s
  ∧ styleClassByType (run calls s) = styleClassByType s
  ∧ ∀ k, Map_get (hooks (run calls s)) k = Map_get (hooks s) k.
Proof. apply (run_keeps frozen perform_frozen). Qed.

(** X8.  No call ever invokes a callback: on a registry whose bundles have
    the keys of [HOOK_TEMPLATE], after any sequence of calls of the exported
    functions and of the two listeners the list of invoked callbacks is as
    it was, whatever the slots of the bundles hold. *)
Theorem no_callback_is_ever_invoked (calls : list api_call) (s : state) :
  bundles_of_template (hooks s) →
  called (run calls s) = called s.
Proof. intros Hb. by apply (run_keeps mute perform_mute calls s). Qed.

Lemma no_callback_is_ever_invoked_witness :
  called
    (run [ FacadeSetHook (member MESSAGE_LEVEL "ERROR") (VFun 7) (VFun 8);
           ShowError [VStr "hi"; VBool true;
                      VObj 9 [(KStr "text", VStr "go"); (KStr "action", VFun 9)]];
           Deliver actionButtonClicked_listener (Event "click" 4 3);
           Deliver dismissMessage_listener (Event "click" 1 1);
           Deliver dismissMessage_listener (Event "transitionend" 0 0);
           HideMessage (member MESSAGE_LEVEL "ERROR") ] hooked)
  = called hooked.
Proof.
  apply (no_callback_is_ever_invoked _ hooked). exact hooked_bundles.
Defined.

(** ** More on [showMessage] *)

(** The first steps of [showMessage], lines 298-342, with the state they
    leave: the call is logged, the first argument is resolved, and for a
    custom message the bundle of properties is set up. *)
Lemma showMessage_steps (args : list value) (s : state) (mt elM : value) (c : bool) :
  (MessageRegister.getElementFromMessageType (first args) s).2 = Return (mt, elM, c) →
  let s1 := (MessageRegister.setup_custom_hooks mt c
               (set_console (λ l, l ++ [(if is_HTMLElement (first args) then LOG_INFO else LOG,
                                         args)]) s)).1 in
  document s1 = document s
  ∧ MessageRegister.showMessage args s
    = match elM with
      | VElem el =>
          MessageRegister.show_on mt el (dismiss_icon_of (document s) el)
            (action_button_of (document s) el) (action_link_of (document s) el)
            (shifted args) s1
      | _ => (s1, Throw (TypeError "not an element"))
      end.
Proof.
  intros Hres. unfold MessageRegister.showMessage.
  rewrite bool_decide_eq_false_2 by lia.
  set (g := λ l : list (log_kind * list value),
         l ++ [(if is_HTMLElement (first args) then LOG_INFO else LOG, args)]).
  rewrite (bind_run _ _ s (set_console g s) tt)
    by (unfold g; by destruct (is_HTMLElement (first args))).
  assert (MessageRegister.getElementFromMessageType (first args) (set_console g s)
          = (set_console g s, Return (mt, elM, c))) as Hres0.
  { apply getElementFromMessageType_run.
    by rewrite getElementFromMessageType_console. }
  rewrite (bind_run _ _ _ _ _ Hres0). cbn beta iota zeta.
  apply getElementFromMessageType_Return in Hres0 as (_ & Hmt & _).
  assert (∃ s2, MessageRegister.setup_custom_hooks mt c (set_console g s) = (s2, Return tt)
                ∧ document s2 = document s) as (s2 & Hsetup & Hdoc).
  { unfold MessageRegister.setup_custom_hooks. destruct c; [|by eexists].
    unfold mbind, JS_bind. simpl. destruct (MessageRegister.member_is_undefined _); by eexists. }
  rewrite (bind_run _ _ _ _ _ Hsetup). rewrite Hsetup. simpl. split; [done|].
  destruct elM; try reflexivity.
  unfold mbind, JS_bind. simpl. rewrite Hmt, Hdoc.
  unfold action_link_of, action_button_of, dismiss_icon_of.
  destruct (head (elementsByClassName (document s) r "message-action-button"));
    simpl; by rewrite ?Hdoc.
Qed.

(** When the first argument does not resolve, the call ends there. *)
Lemma showMessage_unresolved (args : list value) (s : state) (e : exn) :
  (MessageRegister.getElementFromMessageType (first args) s).2 = Throw e →
  MessageRegister.showMessage args s
  = (set_console (λ l, l ++ [(if is_HTMLElement (first args) then LOG_INFO else LOG, args)]) s,
     Throw e).
Proof.
  intros Hres. unfold MessageRegister.showMessage.
  rewrite bool_decide_eq_false_2 by lia.
  set (g := λ l : list (log_kind * list value),
         l ++ [(if is_HTMLElement (first args) then LOG_INFO else LOG, args)]).
  rewrite (bind_run _ _ s (set_console g s) tt)
    by (unfold g; by destruct (is_HTMLElement (first args))).
  pose proof (getElementFromMessageType_console (first args) g s) as Hc.
  pose proof (keeps_getElementFromMessageType (same id) (first args) (set_console g s)) as Hp.
  destruct (MessageRegister.getElementFromMessageType (first args) (set_console g s))
    as [s0 o] eqn:E. simpl in Hc, Hp. unfold same in Hp. simpl in Hp. subst s0.
  rewrite Hres in Hc. subst o. by rewrite (bind_throw _ _ _ _ _ E).
Qed.

(** X9.  [showMessage] attaches no listener, also not to a custom message
    element: whatever it is called with and however it ends, every element
    has the listeners it had.  (Lines 334-337, which are to give a custom
    element its listeners, test [messagetype], which by then is the id of
    the element.) *)
Theorem showMessage_attaches_no_listener (args : list value) (s : state) (r : nat) :
  listeners (document (MessageRegister.showMessage args s).1 !!! r)
  = listeners (document s !!! r).
Proof.
  destruct ((MessageRegister.getElementFromMessageType (first args) s).2)
    as [[[mt elM] c]|e] eqn:Hres.
  - destruct (showMessage_steps args s mt elM c Hres) as [Hdoc ->].
    destruct elM; simpl; try by rewrite Hdoc.
    match goal with |- context [MessageRegister.show_on ?a ?b ?c ?d ?e ?f ?s1] =>
      pose proof (show_on_listeners a b c d e f r s1) as Hk end.
    unfold observing, same in Hk. simpl in Hk. by rewrite Hk, Hdoc.
  - by rewrite (showMessage_unresolved args s e Hres).
Qed.

(** Without a bundle for any type, [showMessage] cannot return. *)
Lemma showMessage_throws_without_bundles (args : list value) (s : state) :
  (∀ k, Map_get (hooks s) k = VUndefined) →
  ∃ e, (MessageRegister.showMessage args s).2 = Throw e.
Proof.
  intros Hh. pose proof (showMessage_quiet args s) as [Hq _].
  destruct (MessageRegister.showMessage args s) as [s' [[]|e]] eqn:E; [exfalso|by eexists].
  simpl in Hq.
  apply showMessage_front in E as (mt & el & c & s1 & _ & _ & Hshow).
  unfold MessageRegister.show_on in Hshow.
  apply bind_Return in Hshow as ([[[main dis] ab] args'] & s2 & _ & H).
  apply bind_Return in H as ([] & s3 & _ & H).
  apply bind_Return in H as ([] & s4 & _ & H).
  apply bind_Return in H as ([] & s5 & _ & H).
  apply bind_Return in H as ([] & s6 & _ & H).
  apply bind_Return in H as ([] & s7 & _ & H).
  pose proof (runHook_keeps (same hooks) mt (member MessageRegister.HOOK_TYPE "SHOW") NoParam
                (λ _ _, eq_refl) s7) as Hk.
  rewrite H in Hk. unfold same in Hk. simpl in Hk.
  rewrite runHook_without_bundle in H; [done|].
  rewrite <- Hk, Hq. apply Hh.
Qed.

(** X10.  From a registry whose map [hooks] is empty, as it is when the
    modules are loaded, [showMessage] never returns: after any sequence of
    calls of the exported functions and listeners, every call of
    [showMessage] ends in an exception. *)
Theorem showMessage_never_returns (s : state) (calls : list api_call) (args : list value) :
  hooks s = [] →
  ∃ e, (MessageRegister.showMessage args (run calls s)).2 = Throw e.
Proof.
  intros Hempty. apply showMessage_throws_without_bundles. intros k.
  destruct (run_keeps frozen perform_frozen calls s) as (_ & _ & Hget).
  by rewrite Hget, Hempty.
Qed.

Lemma showMessage_never_returns_witness :
  ∃ e, (MessageRegister.showMessage [VElem 0; VStr "hi"]
          (run [ FacadeInit;
                 RegisterMessageType (member MESSAGE_LEVEL "ERROR") (VElem 0) (VStr "error");
                 SetHook (member MESSAGE_LEVEL "ERROR") (VObj 30 []) (VFun 7) ] loaded)).2
       = Throw e.
Proof.
  apply (showMessage_never_returns loaded). reflexivity.
Defined.

(** ** The action button, lines 375-394 *)

Lemma keeps_after {A B} (R : relation state) (m : JS A) (f : A → JS B) (s : state) :
  Reflexive R → (∀ a, keeps R (f a)) → R (m s).1 ((m ≫= f) s).1.
Proof.
  intros HR Hf. unfold mbind, JS_bind. destruct (m s) as [s1 [a|e]]; simpl; [apply Hf|done].
Qed.

Lemma own_property_set (k : propkey) (v : value) (p : list (propkey * value)) :
  own_property k (set_own_property k v p) = Some v.
Proof.
  induction p as [|[k' v'] p IH]; simpl.
  - by rewrite bool_decide_eq_true_2.
  - case_bool_decide as Hk; simpl.
    + by rewrite bool_decide_eq_true_2.
    + by rewrite bool_decide_eq_false_2.
Qed.

(** What [hooks[k]] finds and the own properties of [hooks]. *)
Lemma lookup_hooks_own (s : state) (k : propkey) (v : value) :
  own_property k (hooks_props s) = Some v →
  MessageRegister.lookup_hooks s k = MessageRegister.OwnProperty v.
Proof. intros H. unfold MessageRegister.lookup_hooks. by rewrite H. Qed.

Lemma lookup_hooks_OwnProperty (s : state) (k : propkey) (v : value) :
  MessageRegister.lookup_hooks s k = MessageRegister.OwnProperty v →
  own_property k (hooks_props s) = Some v.
Proof.
  unfold MessageRegister.lookup_hooks.
  destruct (own_property k (hooks_props s)); [by intros [= ->]|].
  destruct k; [|done]. repeat case_bool_decide; try done.
  by destruct (Map_prototype_actionButton s).
Qed.

Lemma lookup_hooks_NoProperty (s : state) (k : propkey) :
  MessageRegister.lookup_hooks s k = MessageRegister.NoProperty →
  own_property k (hooks_props s) = None.
Proof. unfold MessageRegister.lookup_hooks. by destruct (own_property k (hooks_props s)). Qed.

(** The end of the branch that shows the button, lines 390-391, changes no
    [href] and no property of [hooks]. *)
Lemma show_action_button_tail_href (ab : value) (button link : nat) :
  keeps (observing href link)
    (text ← get_property ab (KStr "text");
     getMessage ← gets i18n_getMessage;
     label ←
       (if negb (bool_decide (getMessage [text] = "")) then mret (getMessage [text])
        else if is_null text then mret "" else ToString text);
     set_textContent button label;;
     classList_remove button "invisible").
Proof. frame_all. Qed.

Lemma show_action_button_tail_bundle (k : propkey) (ab : value) (button : nat) :
  keeps (same (λ s, own_property k (hooks_props s)))
    (text ← get_property ab (KStr "text");
     getMessage ← gets i18n_getMessage;
     label ←
       (if negb (bool_decide (getMessage [text] = "")) then mret (getMessage [text])
        else if is_null text then mret "" else ToString text);
     set_textContent button label;;
     classList_remove button "invisible").
Proof. frame_all. Qed.

(** Lines 377-391 when [hooks[messagetype]] is an object. *)
Lemma show_action_button_stores (mt : value) o props (action : value) (button link : nat)
    o1 p1 (s : state) :
  own_property (KStr "action") props = Some action →
  isFunction action = true ∨ is_string action = true →
  own_property (ToPropertyKey mt) (hooks_props s) = Some (VObj o1 p1) →
  let s' := (MessageRegister.show_action_button mt (VObj o props) (Some button) (Some link) s).1 in
  href (document s' !!! link) = match action with VStr url => Some url | _ => None end
  ∧ own_property (ToPropertyKey mt) (hooks_props s')
    = Some (VObj o1 (set_own_property (KStr "actionButton")
                       (if isFunction action then action else VNull) p1)).
Proof.
  intros Ha Hor Hb. cbv zeta. unfold MessageRegister.show_action_button.
  change (negb (is_null (VObj o props))) with true. cbv iota.
  rewrite (bind_run _ _ s s action) by (simpl; by rewrite Ha).
  set (k := ToPropertyKey mt) in *.
  match goal with |- context [(?m ≫= ?f) s] =>
    pose proof (keeps_after (observing href link) m f s _
                  (λ _, show_action_button_tail_href (VObj o props) button link)) as H1;
    pose proof (keeps_after (same (λ s, own_property k (hooks_props s))) m f s _
                  (λ _, show_action_button_tail_bundle k (VObj o props) button)) as H2
  end.
  unfold observing, same in H1, H2. rewrite H1, H2. clear H1 H2.
  unfold MessageRegister.set_actionButton_hook, removeAttribute_href, setAttribute_href,
    update_node.
  destruct action; destruct Hor as [Hor|Hor]; try done; simpl;
    unfold mbind, JS_bind, MessageRegister.lookup_hooks; simpl; fold k; rewrite Hb; simpl;
    by rewrite lookup_total_insert_eq, own_property_set.
Qed.

(** Lines 377-388 when [hooks[messagetype]] is [undefined]: the write to
    [hooks[messagetype].actionButton] throws, for a URL after the link got
    it. *)
Lemma show_action_button_no_bundle (mt : value) o props (action : value) (button link : nat)
    (s : state) :
  own_property (KStr "action") props = Some action →
  isFunction action = true ∨ is_string action = true →
  MessageRegister.lookup_hooks s (ToPropertyKey mt) = MessageRegister.NoProperty →
  MessageRegister.show_action_button mt (VObj o props) (Some button) (Some link) s
  = (match action with
     | VStr url => set_document (λ d, <[link := with_href (Some url) (d !!! link)]> d) s
     | _ => s
     end, Throw (TypeError "can't set property of undefined or null")).
Proof.
  intros Ha Hor Hb. unfold MessageRegister.show_action_button.
  change (negb (is_null (VObj o props))) with true. cbv iota.
  rewrite (bind_run _ _ s s action) by (simpl; by rewrite Ha).
  unfold MessageRegister.set_actionButton_hook, removeAttribute_href, setAttribute_href,
    update_node.
  destruct action; destruct Hor as [Hor|Hor]; try done; simpl;
    unfold mbind, JS_bind; simpl;
    change (MessageRegister.lookup_hooks (set_document _ s))
      with (MessageRegister.lookup_hooks s) || idtac;
    by rewrite Hb.
Qed.

(** Lines 344-357 when the first of the remaining arguments is a button
    descriptor. *)
Lemma parse_arguments_descriptor o props (text action : value) (rest : list value) (s : state) :
  own_property (KStr "text") props = Some text → is_undefined text = false →
  own_property (KStr "action") props = Some action → is_undefined action = false →
  MessageRegister.parse_arguments (VObj o props :: rest) s
  = (s, Return (VNull, VBool false, VObj o props, rest)).
Proof.
  intros Ht Htu Ha Hau. unfold MessageRegister.parse_arguments. simpl.
  unfold mbind, JS_bind. simpl. rewrite Ht. simpl. rewrite Htu. simpl.
  rewrite Ha. simpl. by rewrite Hau.
Qed.

(** Lines 368-373 return, and change classes of the icon only. *)
Lemma show_dismiss_icon_run (dis : value) (icon : option nat) (s : state) :
  ∃ s2, MessageRegister.show_dismiss_icon dis icon s = (s2, Return tt)
        ∧ hooks_props s2 = hooks_props s
        ∧ (∀ r, icon ≠ Some r → document s2 !!! r = document s !!! r)
        ∧ (∀ r, href (document s2 !!! r) = href (document s !!! r))
        ∧ (∀ r, textContent (document s2 !!! r) = textContent (document s !!! r)).
Proof.
  unfold MessageRegister.show_dismiss_icon. destruct icon as [icon|]; [|by eexists].
  destruct (same_value dis (VBool true)); eexists; (split; [reflexivity|]); simpl;
    (split; [done|]); (split; [intros r Hr; apply lookup_total_insert_ne; congruence|]);
    split; intros r; apply update_node_other; right; by intros [].
Qed.

Lemma show_dismiss_icon_lookup (k : propkey) (dis : value) (icon : option nat) :
  keeps (same (λ s, MessageRegister.lookup_hooks s k))
    (MessageRegister.show_dismiss_icon dis icon).
Proof. unfold MessageRegister.show_dismiss_icon. frame_all. Qed.

(** Lines 396-403. *)
Lemma show_tail_keeps (R : relation state) `{!PreOrder R} (el : nat) (mt : value) :
  (∀ g s, R s (set_called g s)) →
  (∀ c s, R s (set_document (λ d, <[el := with_classList c (d !!! el)]> d) s)) →
  keeps R (classList_remove el "invisible";;
           classList_remove el "fade-hide";;
           MessageRegister.runHook mt (member MessageRegister.HOOK_TYPE "SHOW") NoParam).
Proof.
  intros Hc Hd.
  apply keeps_bind; [done|intros s; apply Hd|intros _].
  apply keeps_bind; [done|intros s; apply Hd|intros _].
  by apply runHook_keeps.
Qed.

(** X11.  A custom message shown with an action button: when
    [showMessage] is given a message box element and a descriptor with a
    [text] and an [action] that is a function or a string, the box has an
    action button inside a link, and [hooks[id]] is [undefined] or a bundle
    that [hooks] has of its own ([id] is the id of the element; an id that
    names a member which [hooks] inherits, such as ["size"] or ["get"], is
    not of this kind), then, however the call ends, a function is stored as
    [hooks[id].actionButton] and the link loses its [href], and a string
    becomes the [href] of the link and [hooks[id].actionButton] is
    [null]. *)
Theorem custom_action_button (s : state) (el : nat) o props (text action : value)
    (rest : list value) (button link : nat) :
  tokens_contains "message-box" (classList (document s !!! el)) = true →
  own_property (KStr "text") props = Some text → is_undefined text = false →
  own_property (KStr "action") props = Some action →
  isFunction action = true ∨ is_string action = true →
  action_button_of (document s) el = Some button →
  action_link_of (document s) el = Some link →
  let k := KStr (el_id (document s !!! el)) in
  (MessageRegister.lookup_hooks s k = MessageRegister.NoProperty
   ∨ ∃ o0 p0, MessageRegister.lookup_hooks s k = MessageRegister.OwnProperty (VObj o0 p0)) →
  let s' := (MessageRegister.showMessage (VElem el :: VObj o props :: rest) s).1 in
  href (document s' !!! link) = match action with VStr url => Some url | _ => None end
  ∧ ∃ o1 p1, MessageRegister.lookup_hooks s' k = MessageRegister.OwnProperty (VObj o1 p1)
             ∧ own_property (KStr "actionButton") p1
               = Some (if isFunction action then action else VNull).
Proof.
  intros Hbox Ht Htu Ha Hor Hbtn Hlink k Hk s'. subst s'.
  enough (href (document
                  (MessageRegister.showMessage (VElem el :: VObj o props :: rest) s).1 !!! link)
          = match action with VStr url => Some url | _ => None end
          ∧ ∃ o1 p1,
              own_property k
                (hooks_props (MessageRegister.showMessage (VElem el :: VObj o props :: rest) s).1)
              = Some (VObj o1 p1)
              ∧ own_property (KStr "actionButton") p1
                = Some (if isFunction action then action else VNull))
    as (Hh & o1 & p1 & Ho & Hab).
  { split; [exact Hh|]. exists o1, p1. split; [by apply lookup_hooks_own|done]. }
  assert (is_undefined action = false) as Hau by (destruct action, Hor; done).
  assert ((MessageRegister.getElementFromMessageType
             (first (VElem el :: VObj o props :: rest)) s).2
          = Return (VStr (el_id (document s !!! el)), VElem el, true)) as Hres.
  { unfold MessageRegister.getElementFromMessageType, MessageRegister.getCustomMessageType.
    simpl. unfold mbind, JS_bind. simpl. by rewrite Hbox. }
  destruct (showMessage_steps _ s _ _ _ Hres) as [Hdoc ->].
  rewrite Hbtn, Hlink.
  match goal with |- context [MessageRegister.show_on _ _ _ _ _ _ ?s0] => set (s1 := s0) in * end.
  assert (∃ o1 p1, own_property k (hooks_props s1) = Some (VObj o1 p1)) as (o1 & p1 & Hb).
  { subst s1. unfold MessageRegister.setup_custom_hooks. unfold mbind, JS_bind. simpl. fold k.
    change (MessageRegister.lookup_hooks (set_console _ s)) with (MessageRegister.lookup_hooks s).
    destruct Hk as [Hk|(o0 & p0 & Hk)]; rewrite Hk; simpl.
    - rewrite own_property_set. by eexists _, _.
    - rewrite (lookup_hooks_OwnProperty _ _ _ Hk). by eexists _, _. }
  unfold MessageRegister.show_on. simpl shifted.
  rewrite (bind_run _ _ _ _ _ (parse_arguments_descriptor o props text action rest s1
                                 Ht Htu Ha Hau)).
  cbn beta iota zeta. rewrite (bind_run _ _ s1 s1 tt) by done.
  destruct (show_dismiss_icon_run (VBool false) (dismiss_icon_of (document s) el) s1)
    as (s2 & Hicon & Hp2 & _ & Hh2 & _).
  rewrite (bind_run _ _ _ _ _ Hicon).
  match goal with |- context [(?m ≫= ?f) s2] =>
    pose proof (keeps_after (observing href link) m f s2 _
                  (λ _, show_tail_keeps (observing href link) el _
                          (λ _ _, eq_refl)
                          (λ c s0, update_node_other href el link (with_classList c)
                                     (document s0) (or_intror (λ _, eq_refl))))) as H1;
    pose proof (keeps_after (same (λ s, own_property k (hooks_props s))) m f s2 _
                  (λ _, show_tail_keeps (same (λ s, own_property k (hooks_props s))) el _
                          (λ _ _, eq_refl) (λ _ _, eq_refl))) as H2
  end.
  unfold observing, same in H1, H2. rewrite H1, H2. clear H1 H2.
  rewrite <- Hp2 in Hb.
  destruct (show_action_button_stores (VStr (el_id (document s !!! el))) o props action
              button link o1 p1 s2 Ha Hor Hb) as [Hhref Hbundle].
  split; [exact Hhref|].
  eexists _, _. split; [exact Hbundle|]. apply own_property_set.
Qed.

Lemma custom_action_button_witness :
  let s' := (MessageRegister.showMessage
               [VElem 0; VObj 40 [(KStr "text", VStr "Retry"); (KStr "action", VFun 9)]]
               loaded).1 in
  href (document s' !!! 3) = None
  ∧ ∃ o1 p1, MessageRegister.lookup_hooks s' (KStr "messageError")
             = MessageRegister.OwnProperty (VObj o1 p1)
             ∧ own_property (KStr "actionButton") p1 = Some (VFun 9).
Proof.
  apply (custom_action_button loaded 0 40 _ (VStr "Retry") (VFun 9) [] 4 3);
    try reflexivity; by left.
Defined.

(** X12.  A registered message type shown with an action button: when the
    type is bound to an element with an action button inside a link, and
    [hooks[messagetype]] is [undefined] (only a custom message gets a
    bundle, lines 314-323; a type whose name is that of a member which
    [hooks] inherits finds that member and is not of this kind),
    [showMessage] with a descriptor throws a TypeError at line 379 or 387.
    The message box keeps its classes, so it is not made visible, the button
    keeps its text, and a URL has become the [href] of the link by then. *)
Theorem registered_action_button_throws (s : state) (t : value) (el : nat) o props
    (text action : value) (rest : list value) (button link : nat) :
  is_HTMLElement t = false →
  Map_has (elementByType s) t = true →
  Map_get (elementByType s) t = VElem el →
  MessageRegister.lookup_hooks s (ToPropertyKey t) = MessageRegister.NoProperty →
  own_property (KStr "text") props = Some text → is_undefined text = false →
  own_property (KStr "action") props = Some action →
  isFunction action = true ∨ is_string action = true →
  action_button_of (document s) el = Some button →
  action_link_of (document s) el = Some link →
  dismiss_icon_of (document s) el ≠ Some el →
  let r := MessageRegister.showMessage (t :: VObj o props :: rest) s in
  r.2 = Throw (TypeError "can't set property of undefined or null")
  ∧ classList (document r.1 !!! el) = classList (document s !!! el)
  ∧ textContent (document r.1 !!! button) = textContent (document s !!! button)
  ∧ href (document r.1 !!! link)
    = match action with VStr url => Some url | _ => href (document s !!! link) end.
Proof.
  intros Hne Hhas Hget Hk Ht Htu Ha Hor Hbtn Hlink Hicon r. subst r.
  assert (is_undefined action = false) as Hau by (destruct action, Hor; done).
  assert ((MessageRegister.getElementFromMessageType
             (first (t :: VObj o props :: rest)) s).2
          = Return (t, VElem el, false)) as Hres.
  { unfold MessageRegister.getElementFromMessageType. simpl. rewrite Hne.
    unfold mbind, JS_bind. simpl. by rewrite Hhas, Hget. }
  destruct (showMessage_steps _ s _ _ _ Hres) as [Hdoc ->].
  rewrite Hbtn, Hlink.
  match goal with |- context [MessageRegister.show_on _ _ _ _ _ _ ?s0] => set (s1 := s0) in * end.
  assert (hooks_props s1 = hooks_props s) as Hp1 by done.
  unfold MessageRegister.show_on. simpl shifted.
  rewrite (bind_run _ _ _ _ _ (parse_arguments_descriptor o props text action rest s1
                                 Ht Htu Ha Hau)).
  cbn beta iota zeta. rewrite (bind_run _ _ s1 s1 tt) by done.
  destruct (show_dismiss_icon_run (VBool false) (dismiss_icon_of (document s) el) s1)
    as (s2 & Hrun & Hp2 & Hd2 & Hh2 & Ht2).
  rewrite (bind_run _ _ _ _ _ Hrun).
  pose proof (show_dismiss_icon_lookup (ToPropertyKey t) (VBool false)
                (dismiss_icon_of (document s) el) s1) as Hl2.
  rewrite Hrun in Hl2. unfold same in Hl2. simpl in Hl2.
  assert (MessageRegister.lookup_hooks s2 (ToPropertyKey t) = MessageRegister.NoProperty)
    as Hk2 by (by rewrite Hl2).
  rewrite (bind_throw _ _ _ _ _
             (show_action_button_no_bundle t o props action button link s2 Ha Hor Hk2)).
  simpl. split; [done|].
  destruct action, Hor; try done; simpl;
    rewrite ?lookup_total_insert_eq,
      ?(update_node_other classList link el (with_href _) _ (or_intror (λ _, eq_refl))),
      ?(update_node_other textContent link button (with_href _) _ (or_intror (λ _, eq_refl)));
    rewrite ?Hd2, ?Hh2, ?Ht2, ?Hdoc by done; done.
Qed.

Lemma registered_action_button_throws_witness :
  let r := MessageRegister.showMessage
             [member MESSAGE_LEVEL "ERROR";
              VObj 40 [(KStr "text", VStr "Retry"); (KStr "action", VStr "https://example.org")]]
             registered in
  r.2 = Throw (TypeError "can't set property of undefined or null")
  ∧ classList (document r.1 !!! 0) = classList (document registered !!! 0)
  ∧ textContent (document r.1 !!! 4) = textContent (document registered !!! 4)
  ∧ href (document r.1 !!! 3) = Some "https://example.org".
Proof.
  apply (registered_action_button_throws registered (member MESSAGE_LEVEL "ERROR") 0 40 _
           (VStr "Retry") (VStr "https://example.org") [] 4 3);
    try reflexivity; [by right|done].
Defined.

(** An id that names a member which [hooks] inherits.  For a message box
    with the id ["size"] line 316 finds a number: no bundle is made and the
    write of line 379 throws.  With the id ["get"] it finds the method: no
    bundle is made either, the write goes to the function object, and the
    call goes on to show the box. *)
Lemma inherited_member_is_no_bundle :
  let sized := set_document (λ d, <[0 := with_id "size" (d !!! 0)]> d) loaded in
  let got := set_document (λ d, <[0 := with_id "get" (d !!! 0)]> d) loaded in
  let descriptor := VObj 40 [(KStr "text", VStr "Retry"); (KStr "action", VFun 9)] in
  (MessageRegister.showMessage [VElem 0; descriptor] sized).2
    = Throw (TypeError "can't assign to property on a primitive")
  ∧ hooks_props (MessageRegister.showMessage [VElem 0; descriptor] sized).1 = []
  ∧ classList (document (MessageRegister.showMessage [VElem 0; descriptor] sized).1 !!! 0)
    = ["message-box"; "error"; "invisible"]
  ∧ hooks_props (MessageRegister.showMessage [VElem 0; descriptor] got).1 = []
  ∧ classList (document (MessageRegister.showMessage [VElem 0; descriptor] got).1 !!! 0)
    = ["message-box"; "error"].
Proof. repeat split; vm_compute; reflexivity. Qed.


(** ** The message text, lines 359-366 *)

(** Lines 344-357 on a message followed by strings only: the message is
    taken, nothing else. *)
Lemma parse_arguments_strings (m : string) (rest : list value) (s : state) :
  Forall (λ v, is_string v = true) rest →
  MessageRegister.parse_arguments (VStr m :: rest) s
  = (s, Return (VStr m, VBool false, VNull, rest)).
Proof.
  intros Hrest. unfold MessageRegister.parse_arguments. simpl.
  destruct rest as [|v rest]; [done|].
  apply Forall_cons in Hrest as [Hv _]. by destruct v.
Qed.

Lemma forEach_update_run (kids : list nat) (g : node → node) (s : state) :
  ∃ s2, forEach kids (λ c, update_node c g) s = (s2, Return tt)
        ∧ i18n_getMessage s2 = i18n_getMessage s.
Proof.
  revert s. induction kids as [|c kids IH]; intros s; simpl; [by eexists|].
  unfold mbind, JS_bind. simpl.
  destruct (IH (set_document (λ d, <[c := g (d !!! c)]> d) s)) as (s2 & -> & Hi).
  by eexists.
Qed.

(** Setting [textContent] returns. *)
Lemma set_textContent_run (r : nat) (t : string) (s : state) :
  ∃ s2, set_textContent r t s = (s2, Return tt)
        ∧ textContent (document s2 !!! r) = t.
Proof.
  unfold set_textContent. unfold mbind at 1, JS_bind at 1. simpl.
  destruct (forEach_update_run (children (document s !!! r)) (with_parentNode None) s)
    as (s2 & Hrun & _).
  rewrite (bind_run _ _ _ _ _ Hrun). eexists. split; [reflexivity|].
  simpl. by rewrite lookup_total_insert_eq.
Qed.

(** Without a button descriptor, lines 368-403 change no text. *)
Lemma show_without_button_text (r0 : nat) mt el dis icon btn link :
  keeps (observing textContent r0)
    (MessageRegister.show_dismiss_icon dis icon;;
     MessageRegister.show_action_button mt VNull btn link;;
     classList_remove el "invisible";;
     classList_remove el "fade-hide";;
     MessageRegister.runHook mt (member MessageRegister.HOOK_TYPE "SHOW") NoParam).
Proof. frame_all. Qed.

(** Lines 359-366 *)
Lemma show_text_run (el : nat) (m : string) (rest : list value) (s : state) :
  MessageRegister.show_text el (VStr m) rest s
  = match head (elementsByClassName (document s) el "message-text") with
    | Some text =>
        set_textContent text
          (if bool_decide (i18n_getMessage s (VStr m :: rest) ≠ "")
           then i18n_getMessage s (VStr m :: rest)
           else if bool_decide (m ≠ "") then m
           else i18n_getMessage s [VStr "errorShowingMessage"]) s
    | None => (s, Throw (TypeError "can't access property of undefined or null"))
    end.
Proof.
  unfold MessageRegister.show_text, getElementsByClassName.
  unfold mbind at 1 2, JS_bind at 1 2. simpl.
  destruct (head _); simpl; [|done].
  unfold mbind, JS_bind. simpl.
  by repeat case_bool_decide.
Qed.

(** X13.  The text of a message: when [showMessage] is called with a type
    that resolves to an element, a message string and then only strings,
    the element of class [message-text] in the message box gets as text
    the translation [browser.i18n.getMessage] gives for these strings, or,
    when that is empty, the message string itself, or, when that is empty
    too, the translation of ["errorShowingMessage"]; this holds however the
    call ends.  When the message box has no such element the call throws a
    TypeError and the page is as before. *)
Theorem showMessage_text (s : state) (t mt : value) (el : nat) (c : bool) (m : string)
    (rest : list value) :
  (MessageRegister.getElementFromMessageType t s).2 = Return (mt, VElem el, c) →
  Forall (λ v, is_string v = true) rest →
  let getMessage := i18n_getMessage s in
  let localizedString :=
    if bool_decide (getMessage (VStr m :: rest) ≠ "") then getMessage (VStr m :: rest)
    else if bool_decide (m ≠ "") then m
    else getMessage [VStr "errorShowingMessage"] in
  let r := MessageRegister.showMessage (t :: VStr m :: rest) s in
  match head (elementsByClassName (document s) el "message-text") with
  | Some text => textContent (document r.1 !!! text) = localizedString
  | None => r.2 = Throw (TypeError "can't access property of undefined or null")
            ∧ document r.1 = document s
  end.
Proof.
  intros Hres Hrest getMessage localizedString r. subst r.
  destruct (showMessage_steps (t :: VStr m :: rest) s _ _ _ Hres) as [Hdoc ->].
  match goal with |- context [MessageRegister.show_on _ _ _ _ _ _ ?s0] => set (s1 := s0) in * end.
  assert (i18n_getMessage s1 = getMessage) as Hi.
  { subst s1. unfold MessageRegister.setup_custom_hooks. destruct c; [|done].
    unfold mbind, JS_bind. simpl. by destruct (MessageRegister.member_is_undefined _). }
  unfold MessageRegister.show_on. simpl shifted.
  rewrite (bind_run _ _ _ _ _ (parse_arguments_strings m rest s1 Hrest)).
  cbn beta iota zeta.
  pose proof (show_text_run el m rest s1) as Htext. rewrite Hdoc, Hi in Htext.
  fold localizedString in Htext.
  destruct (head (elementsByClassName (document s) el "message-text")) as [text|].
  - destruct (set_textContent_run text localizedString s1) as (s2 & Hset & Hs2).
    rewrite Hset in Htext. rewrite (bind_run _ _ _ _ _ Htext).
    match goal with |- context [?f s2] =>
      pose proof (show_without_button_text text mt el (VBool false)
                    (dismiss_icon_of (document s) el) (action_button_of (document s) el)
                    (action_link_of (document s) el) s2) as Hk
    end.
    unfold observing, same in Hk. by rewrite Hk.
  - by rewrite (bind_throw _ _ _ _ _ Htext).
Qed.

Lemma showMessage_text_witness :
  let r := MessageRegister.showMessage [member MESSAGE_LEVEL "ERROR"; VStr "No connection"]
             registered in
  textContent (document r.1 !!! 2) = "No connection".
Proof.
  apply (showMessage_text registered (member MESSAGE_LEVEL "ERROR")
           (member MESSAGE_LEVEL "ERROR") 0 false
           "No connection" []); [reflexivity|constructor].
Defined.

(** ** [cloneMessage] *)

Lemma lookup_total_extends (d d' : gmap nat node) (x : nat) :
  d ⊆ d' → x ∈ dom d → d' !!! x = d !!! x.
Proof.
  intros Hsub [n Hn]%elem_of_dom.
  rewrite !lookup_total_alt, Hn. by rewrite (lookup_weaken _ _ _ _ Hn Hsub).
Qed.

Lemma extends_refl (d : gmap nat node) : extends d d.
Proof.
  split; [done|]. intros x c Hx.
  rewrite lookup_total_alt, (not_elem_of_dom_1 _ _ Hx). simpl. by intros ?%elem_of_nil.
Qed.

Lemma extends_insert (d0 d : gmap nat node) (x : nat) (n : node) :
  extends d0 d → x ∉ dom d0 → (∀ c, c ∈ children n → c ∉ dom d0) →
  extends d0 (<[x := n]> d).
Proof.
  intros [Hsub Hkids] Hx Hn. split.
  - apply insert_subseteq_r; [by apply not_elem_of_dom|done].
  - intros y c Hy. destruct (decide (x = y)) as [->|Hne].
    + rewrite lookup_total_insert_eq. apply Hn.
    + rewrite lookup_total_insert_ne by done. by apply Hkids.
Qed.

Lemma fresh_ref_extends (d0 d : gmap nat node) : extends d0 d → fresh_ref d ∉ dom d0.
Proof.
  intros [Hsub _] Hin. apply (is_fresh (dom d)). fold (fresh_ref d).
  by apply (subseteq_dom _ _ Hsub).
Qed.

(** [cloneNode] extends the page, and the copy is a new element. *)
Lemma clone_tree_extends (fuel : nat) (d0 d : gmap nat node) (r : nat) (parent : option nat) :
  extends d0 d →
  extends d0 (clone_tree fuel d r parent).1 ∧ (clone_tree fuel d r parent).2 ∉ dom d0.
Proof.
  revert d r parent. induction fuel as [|fuel IH]; intros d r parent Hext.
  - simpl. split; [|by apply fresh_ref_extends].
    apply extends_insert; [done|by apply fresh_ref_extends|].
    simpl. by intros c ?%elem_of_nil.
  - simpl.
    set (new := fresh_ref d).
    match goal with |- context [<[new := ?n]> d] => set (copy := n) end.
    assert (new ∉ dom d0) as Hnew by (by apply fresh_ref_extends).
    assert (∀ (kids : list nat) (acc : gmap nat node * list nat),
              extends d0 acc.1 → (∀ k, k ∈ acc.2 → k ∉ dom d0) →
              let res := foldl (λ acc c, let '(d1, ks) := acc in
                                         let '(d2, k) := clone_tree fuel d1 c (Some new) in
                                         (d2, ks ++ [k])) acc kids in
              extends d0 res.1 ∧ ∀ k, k ∈ res.2 → k ∉ dom d0) as Hfold.
    { induction kids as [|c kids IHk]; intros [d1 ks] H1 H2; simpl; [done|].
      destruct (IH d1 c (Some new) H1) as [H3 H4].
      destruct (clone_tree fuel d1 c (Some new)) as [d2 k]. apply IHk; simpl; [done|].
      intros k' [Hk'| ->%list_elem_of_singleton]%elem_of_app; [by apply H2|done]. }
    specialize (Hfold (children (d !!! r)) (<[new := copy]> d, [])).
    destruct Hfold as [H1 H2].
    { simpl. apply extends_insert; [done..|]. simpl. by intros c ?%elem_of_nil. }
    { simpl. by intros k ?%elem_of_nil. }
    destruct (foldl _ _ _) as [d' kids]. simpl in *. split; [|done].
    apply extends_insert; done.
Qed.

(** Below a new element there are new elements only. *)
Lemma descendants_extends (d0 d : gmap nat node) (fuel : nat) (x y : nat) :
  extends d0 d → x ∉ dom d0 → y ∈ descendants fuel d x → y ∉ dom d0.
Proof.
  intros [_ Hkids]. revert x. induction fuel as [|fuel IH]; intros x Hx; simpl.
  - by intros ?%elem_of_nil.
  - intros Hy%list_elem_of_In. apply in_flat_map in Hy as (c & Hc%list_elem_of_In & Hy).
    assert (c ∉ dom d0) as Hc0 by (by apply (Hkids x)).
    destruct Hy as [<-|Hy%list_elem_of_In]; [done|]. by apply (IH c).
Qed.

Lemma ToString_run (v : value) :
  ∃ o, ∀ s, ToString v s = (s, o).
Proof. destruct v as [| |[]| | | | | |]; by eexists. Qed.

Lemma getElementFromMessageType_pure (x : value) (s : state) :
  MessageRegister.getElementFromMessageType x s
  = (s, (MessageRegister.getElementFromMessageType x s).2).
Proof.
  pose proof (keeps_getElementFromMessageType (same id) x s) as Hp.
  destruct (MessageRegister.getElementFromMessageType x s) as [s0 o].
  unfold same in Hp. simpl in *. by subst.
Qed.

(** [hideMessage] on a new element without an entry in [hooks] throws, in
    the lookup of the type or in [runHook], and what it changes is new. *)
Lemma hideMessage_new_element (s : state) (d0 : gmap nat node) (new : nat) :
  extends d0 (document s) → new ∉ dom d0 →
  Map_get (hooks s) (VElem new) = VUndefined →
  let r := MessageRegister.hideMessage (VElem new) s in
  (∃ e, r.2 = Throw e) ∧ ∀ x, x ∈ dom d0 → document r.1 !!! x = document s !!! x.
Proof.
  intros Hext Hnew Hget r. subst r.
  destruct ((MessageRegister.getElementFromMessageType (VElem new) s).2)
    as [[[t elM] c]|e] eqn:Hres.
  - pose proof (getElementFromMessageType_run _ _ _ _ _ Hres) as Hrun.
    apply getElementFromMessageType_Return in Hrun as (_ & Ht & Hc).
    destruct c; [destruct Hc as [-> _]|destruct Hc as [-> _]; done].
    destruct (hideMessage_run (VElem new) t new true s eq_refl Hres) as (s1 & Hdoc & Hh & ->).
    rewrite runHook_without_bundle by (by rewrite Hh). simpl.
    split; [by eexists|]. intros x Hx. rewrite Hdoc.
    apply hidden_spec; [congruence|].
    intros Hicon%head_Some_elem_of. unfold elementsByClassName in Hicon.
    rewrite list_elem_of_filter in Hicon. destruct Hicon as [_ Hicon].
    by apply (descendants_extends d0 _ _ _ _ Hext Hnew) in Hicon.
  - unfold MessageRegister.hideMessage, MessageRegister.stack_limit. simpl.
    rewrite (bind_throw _ _ s s e)
      by (by rewrite getElementFromMessageType_pure, Hres).
    simpl. split; [by eexists|done].
Qed.

(** X14.  [cloneMessage] never returns and never attaches the copy: when
    [hooks] has no entry for an element that is not of the page, every call
    ends in an exception (at the latest in [hideMessage], line 470, which
    runs the hook of the copy itself), and every element of the page is
    exactly as it was; line 473 is not reached. *)
Theorem cloneMessage_never_returns (s : state) (messagetype newId : value) :
  (∀ r, r ∉ dom (document s) → Map_get (hooks s) (VElem r) = VUndefined) →
  let r := MessageRegister.cloneMessage messagetype newId s in
  (∃ e, r.2 = Throw e) ∧ ∀ x, x ∈ dom (document s) → document r.1 !!! x = document s !!! x.
Proof.
  intros Hh r. subst r. unfold MessageRegister.cloneMessage.
  pose proof (getElementFromMessageType_pure messagetype s) as Hres.
  destruct ((MessageRegister.getElementFromMessageType messagetype s).2)
    as [[[t elM] c]|e];
    [rewrite (bind_run _ _ _ _ _ Hres)|rewrite (bind_throw _ _ _ _ _ Hres)];
    [|split; [by eexists|done]].
  cbn beta iota.
  destruct elM as [| | | | |el| | |];
    try (unfold mbind, JS_bind; simpl; split; [by eexists|done]).
  rewrite (bind_run _ _ s s el) by done. simpl truthy.
  destruct (clone_tree_extends (size (document s)) (document s) (document s) el None
              (extends_refl _)) as [Hext Hnew].
  assert (∃ d' new, clone_tree (size (document s)) (document s) el None = (d', new))
    as (d' & new & Hclone) by (destruct (clone_tree _ _ _ _); by eexists _, _).
  rewrite Hclone in Hext, Hnew. simpl in Hext, Hnew.
  rewrite (bind_run _ _ s (set_document (λ _, d') s) new)
    by (unfold cloneNode, mbind, JS_bind; simpl; by rewrite Hclone).
  destruct (ToString_run newId) as [[str|e] Hstr].
  2: { rewrite (bind_throw _ _ _ _ _ (Hstr _)). simpl. split; [by eexists|].
       intros x Hx. by apply lookup_total_extends; [apply Hext|]. }
  rewrite (bind_run _ _ _ _ _ (Hstr _)).
  set (s2 := set_document (λ d, <[new := with_id str (d !!! new)]> d)
               (set_document (λ _, d') s)).
  rewrite (bind_run _ _ _ s2 tt) by done.
  assert (extends (document s) (document s2)) as Hext2.
  { simpl. apply extends_insert; [done..|]. intros c0. simpl. by apply Hext. }
  destruct (hideMessage_new_element s2 (document s) new Hext2 Hnew (Hh new Hnew))
    as [[e He] Hdoc].
  destruct (MessageRegister.hideMessage (VElem new) s2) as [s3 o] eqn:Hhide.
  simpl in He, Hdoc. subst o. rewrite (bind_throw _ _ _ _ _ Hhide). simpl.
  split; [by eexists|]. intros x Hx. rewrite Hdoc by done.
  by apply lookup_total_extends; [apply Hext2|].
Qed.

Lemma cloneMessage_never_returns_witness :
  let r := MessageRegister.cloneMessage (member MESSAGE_LEVEL "ERROR") (VStr "copy") registered in
  (∃ e, r.2 = Throw e)
  ∧ ∀ x, x ∈ dom (document registered) → document r.1 !!! x = document registered !!! x.
Proof.
  apply (cloneMessage_never_returns registered). intros r _. reflexivity.
Defined.

(** ** The facade *)

(** [hideMessage] with a type that is no element and no key of
    [elementByType]: the lookup throws, a [TypeError] for a symbol and the
    [Error] about the type for every other value, and nothing changes. *)
Lemma hideMessage_unregistered (s : state) (t : value) :
  is_HTMLElement t = false → is_null t || is_undefined t = false →
  Map_has (elementByType s) t = false →
  ∃ e, MessageRegister.hideMessage t s = (s, Throw e)
       ∧ match t with
         | VSym _ => e = TypeError "can't convert symbol to string"
         | _ => ∃ msg, e = Error msg t
         end.
Proof.
  intros Hel Hnull Hhas.
  destruct (getElementFromMessageType_unknown s t) as (e & Hthrow & He).
  { by destruct t. }
  exists e. split; [|exact He].
  unfold MessageRegister.hideMessage, MessageRegister.stack_limit.
  simpl. rewrite Hnull. by rewrite (bind_throw _ _ _ _ _ Hthrow).
Qed.

(** X15.  The four hide entry points of the facade, lines 35-67: from a
    registry whose map [elementByType] is empty, as it is when the modules
    are loaded, and after any sequence of calls, each of [hideWarning],
    [hideInfo], [hideLoading] and [hideSuccess] throws and changes nothing.
    What it throws is not the [Error] of line 140 about the unknown type but
    the [TypeError] of the template literal of that line, which cannot
    convert the symbol of the level to a string. *)
Theorem hide_entry_points_throw (s : state) (calls : list api_call) (hide : JS unit) :
  elementByType s = [] →
  hide ∈ [ MessageHandler.hideWarning; MessageHandler.hideInfo;
           MessageHandler.hideLoading; MessageHandler.hideSuccess ] →
  hide (run calls s)
  = (run calls s, Throw (TypeError "can't convert symbol to string")).
Proof.
  intros Hempty Hin.
  destruct (run_keeps frozen perform_frozen calls s) as (Hel & _ & _).
  rewrite Hempty in Hel.
  assert (∀ l, MessageRegister.hideMessage (VSym (LevelSymbol l)) (run calls s)
               = (run calls s, Throw (TypeError "can't convert symbol to string"))) as Hhide.
  { intros l.
    destruct (hideMessage_unregistered (run calls s) (VSym (LevelSymbol l)))
      as (e & Hthrow & ->); [done|done|by rewrite Hel|exact Hthrow]. }
  repeat (apply elem_of_cons in Hin as [->|Hin]);
    [..|by apply elem_of_nil in Hin]; apply Hhide.
Qed.

Lemma hide_entry_points_throw_witness :
  MessageHandler.hideWarning (run [FacadeInit; ShowWarning [VStr "careful"]] loaded)
  = (run [FacadeInit; ShowWarning [VStr "careful"]] loaded,
     Throw (TypeError "can't convert symbol to string")).
Proof.
  apply (hide_entry_points_throw loaded); [reflexivity|]. apply elem_of_cons. by left.
Defined.

(** X16.  The hook setters of the facade, lines 175-197: [setHook] and
    [setDismissHooks] throw a TypeError in their first call of
    [MessageRegister.setHook], whatever they are given, and leave the state
    as it is; the second call is not reached. *)
Theorem facade_hook_setters_throw (s : state) (messagetype hookShown hookHidden : value)
    (startHook endHook : value) :
  MessageHandler.setHook messagetype hookShown hookHidden s
  = (s, Throw (TypeError "can't assign to property on a primitive"))
  ∧ MessageHandler.setDismissHooks startHook endHook s
    = (s, Throw (TypeError "can't assign to property on a primitive")).
Proof.
  unfold MessageHandler.setHook, MessageHandler.setDismissHooks.
  split; apply bind_throw, setHook_symbol_throws.
Qed.

(** ** [actionButtonClicked] *)

(** X17.  A click on the action button of a message whose type has no
    entry in the map [hooks] (so of every custom message: line 317 gives
    [hooks] a property, not an entry): the click is logged and the handler
    throws a TypeError in [runHook]; the page and [hooks] are as before and
    no function is invoked, also not the one line 379 stored. *)
Theorem action_click_without_bundle (ev : event) (s : state) (messagetype : value) :
  (MessageRegister.getMessageTypeFromElement
     (parent_value (document s !!! ev_currentTarget ev)) s).2 = Return messagetype →
  Map_get (hooks s) messagetype = VUndefined →
  MessageRegister.actionButtonClicked ev s
  = (set_console (λ c, c ++ [(LOG_INFO, [VStr "action button clicked for "; messagetype;
                                         VEvent ev])]) s,
     Throw (TypeError "can't access property of undefined or null")).
Proof.
  intros Hres%getMessageTypeFromElement_run Hget. unfold MessageRegister.actionButtonClicked.
  rewrite (bind_run _ _ s s (parent_value (document s !!! ev_currentTarget ev))) by done.
  rewrite (bind_run _ _ _ _ _ Hres).
  rewrite (bind_run _ _ s (set_console (λ c, c ++ [(LOG_INFO,
             [VStr "action button clicked for "; messagetype; VEvent ev])]) s) tt) by done.
  by apply runHook_without_bundle.
Qed.

Lemma action_click_without_bundle_witness :
  let s := (MessageRegister.showMessage
              [VElem 0; VObj 40 [(KStr "text", VStr "Retry"); (KStr "action", VFun 9)]]
              loaded).1 in
  MessageRegister.actionButtonClicked (Event "click" 4 3) s
  = (set_console (λ c, c ++ [(LOG_INFO, [VStr "action button clicked for "; VStr "messageError";
                                         VEvent (Event "click" 4 3)])]) s,
     Throw (TypeError "can't access property of undefined or null")).
Proof.
  apply (action_click_without_bundle (Event "click" 4 3)); reflexivity.
Defined.
